(** * CashCompass: the RampageAI chatbot relay (backend/chatbot_api.py)

    A shallow embedding of the Flask module [backend/chatbot_api.py]: the
    start-up check on the provider key, the [/health] view, the [/chat]
    view with its prompt assembly and the [__main__] block, together with
    the part of Python's dynamic semantics these views rely on
    (truthiness, [in], subscripts, [dict.get], [str()], [repr()],
    [print], [try ... except Exception]).

    Conventions.
    - A Python [str] is a Rocq [string] holding its bytes under the codec
      utf-8 with [surrogatepass]: the rupee sign of the source is the
      three bytes E2 82 B9, and a lone surrogate, which a [str] may hold
      and [json.loads] accepts, is the three bytes ED A0..BF 80..BF.
      Concatenation, emptiness and the search for an ASCII text agree on
      characters and on these bytes.
    - Standard output is a UTF-8 text stream.  Its error handler is part
      of the world: [strict] under a UTF-8 locale, [surrogateescape]
      under the C locale and in UTF-8 mode.
    - A Python [dict] is an association list in insertion order (the order
      shows in [str()] of a dict); look-up takes the first binding.
    - A Python [float] is kept as the two observations this module can make
      of it: whether it is non-zero ([bool()]) and its [repr] text, which
      is made of digits, a sign, a point, an exponent mark or the letters
      of [inf] and [nan].
    - Exception messages and the table of printable characters are those
      of CPython 3.11 (Unicode 14.0). *)

From Stdlib Require Import String Ascii List ZArith NArith Bool DecimalString Lia.
Import ListNotations.
Local Open Scope string_scope.

(* ================================================================== *)
(** ** Strings *)

(** The Python escapes the source writes inside its literals. *)
Definition LF : ascii := ascii_of_nat 10.
Definition CR : ascii := ascii_of_nat 13.
Definition TAB : ascii := ascii_of_nat 9.
Definition DQUOTE : ascii := ascii_of_nat 34.
Definition SQUOTE : ascii := ascii_of_nat 39.
Definition BACKSLASH : ascii := ascii_of_nat 92.

(** ["\n"] *)
Definition nl : string := String LF EmptyString.

(** [sep.join(parts)] *)
Fixpoint join (sep : string) (parts : list string) : string :=
  match parts with
  | [] => ""
  | [p] => p
  | p :: rest => p ++ sep ++ join sep rest
  end.

(** [needle in hay] on two strings: some suffix of [hay] starts with
    [needle]. *)
Fixpoint str_contains (needle hay : string) : bool :=
  String.prefix needle hay ||
  match hay with
  | EmptyString => false
  | String _ hay' => str_contains needle hay'
  end.

Definition has_char (c : ascii) (s : string) : bool :=
  existsb (Ascii.eqb c) (list_ascii_of_string s).

(** The string made of the bytes with the given values. *)
Definition bytes (values : list N) : string :=
  string_of_list_ascii (map ascii_of_N values).

(* ================================================================== *)
(** ** Characters and their bytes *)

(** A byte of the form 10xxxxxx continues the UTF-8 encoding of the
    character begun before it. *)
Definition is_continuation (c : ascii) : bool :=
  let n := nat_of_ascii c in Nat.leb 128 n && Nat.ltb n 192.

(** [len(s)]: the number of characters, one per byte that starts one. *)
Fixpoint char_count (s : string) : nat :=
  match s with
  | EmptyString => 0
  | String c rest =>
      if is_continuation c then char_count rest else S (char_count rest)
  end.

(** [s[:n]]: the first [n] characters of [s], all of [s] when it has
    fewer. *)
Fixpoint take_chars (n : nat) (s : string) : string :=
  match s with
  | EmptyString => EmptyString
  | String c rest =>
      if is_continuation c then String c (take_chars n rest)
      else match n with
           | 0 => EmptyString
           | S n' => String c (take_chars n' rest)
           end
  end.

(** The six payload bits of a continuation byte. *)
Definition payload (c : ascii) : N := (N_of_ascii c - 128)%N.

(** [[ord(ch) for ch in s]].  A byte that starts no well-formed sequence
    (there is none in the bytes of a [str]) counts as the character of
    its value. *)
Fixpoint code_points (s : string) : list N :=
  match s with
  | EmptyString => []
  | String c1 r1 =>
      let b1 := N_of_ascii c1 in
      if (b1 <? 192)%N then b1 :: code_points r1
      else
        match r1 with
        | String c2 r2 =>
            if negb (is_continuation c2) then b1 :: code_points r1
            else if (b1 <? 224)%N
            then ((b1 - 192) * 64 + payload c2)%N :: code_points r2
            else
              match r2 with
              | String c3 r3 =>
                  if negb (is_continuation c3) then b1 :: code_points r1
                  else if (b1 <? 240)%N
                  then ((b1 - 224) * 4096 + payload c2 * 64 + payload c3)%N
                         :: code_points r3
                  else
                    match r3 with
                    | String c4 r4 =>
                        if negb (is_continuation c4) then b1 :: code_points r1
                        else (((b1 - 240) mod 8) * 262144 + payload c2 * 4096
                              + payload c3 * 64 + payload c4)%N
                               :: code_points r4
                    | EmptyString => b1 :: code_points r1
                    end
              | EmptyString => b1 :: code_points r1
              end
        | EmptyString => b1 :: code_points r1
        end
  end.

(** The bytes of one character. *)
Definition utf8 (cp : N) : string :=
  if (cp <? 128)%N then bytes [cp]
  else if (cp <? 2048)%N then bytes [192 + cp / 64; 128 + cp mod 64]%N
  else if (cp <? 65536)%N
  then bytes [224 + cp / 4096; 128 + (cp / 64) mod 64; 128 + cp mod 64]%N
  else bytes [240 + (cp / 262144) mod 8; 128 + (cp / 4096) mod 64;
              128 + (cp / 64) mod 64; 128 + cp mod 64]%N.

(** U+D800 to U+DFFF *)
Definition is_surrogate (cp : N) : bool := (55296 <=? cp)%N && (cp <=? 57343)%N.

(** Does the text go on with a byte A0..BF?  After a byte ED this is the
    second byte of a surrogate. *)
Definition starts_trail (s : string) : bool :=
  match s with
  | String c _ => (160 <=? N_of_ascii c)%N && (N_of_ascii c <=? 191)%N
  | EmptyString => false
  end.

(** Does [s] begin with a surrogate? *)
Definition surrogate_at (s : string) : bool :=
  match s with
  | String c rest => (N_of_ascii c =? 237)%N && starts_trail rest
  | EmptyString => false
  end.

(** Does [s] hold a surrogate anywhere? *)
Fixpoint has_surrogate (s : string) : bool :=
  match s with
  | EmptyString => false
  | String c rest =>
      ((N_of_ascii c =? 237)%N && starts_trail rest) || has_surrogate rest
  end.

(** The surrogate [s] begins with. *)
Definition surrogate_value (s : string) : N :=
  match s with
  | String _ (String c2 (String c3 _)) => (53248 + payload c2 * 64 + payload c3)%N
  | String _ (String c2 EmptyString) => (53248 + payload c2 * 64)%N
  | _ => 0%N
  end.

(** The number of surrogates in a row that [s] begins with. *)
Fixpoint surrogate_run (s : string) : nat :=
  match s with
  | EmptyString => 0
  | String c r1 =>
      if (N_of_ascii c =? 237)%N && starts_trail r1
      then S (match r1 with
              | String _ (String _ r3) => surrogate_run r3
              | _ => 0
              end)
      else 0
  end.

(* ================================================================== *)
(** ** Encoding for standard output *)

Inductive error_handler : Type := strict | surrogateescape.

(** The UTF-8 encoder refuses every surrogate under [strict]; under
    [surrogateescape] it lets U+DC80 to U+DCFF through. *)
Definition refused (handler : error_handler) (cp : N) : bool :=
  match handler with
  | strict => true
  | surrogateescape => negb ((56448 <=? cp)%N && (cp <=? 56575)%N)
  end.

(** The first character the encoder refuses, with its position, the end
    of the run of surrogates it stands in, and its value; [index] counts
    the characters before [s]. *)
Fixpoint first_refused (handler : error_handler) (s : string) (index : nat)
  : option (nat * nat * N) :=
  match s with
  | EmptyString => None
  | String c rest =>
      if (N_of_ascii c =? 237)%N && starts_trail rest
         && refused handler (surrogate_value s)
      then Some (index, index + surrogate_run s, surrogate_value s)
      else first_refused handler rest
             (if is_continuation c then index else S index)
  end.

(** Can [s] be written to a stream with this handler? *)
Definition encodes (handler : error_handler) (s : string) : bool :=
  match first_refused handler s 0 with
  | None => true
  | Some _ => false
  end.

(* ================================================================== *)
(** ** Numbers as text *)

Definition hex_digits : list ascii :=
  ["0"; "1"; "2"; "3"; "4"; "5"; "6"; "7"; "8"; "9";
   "a"; "b"; "c"; "d"; "e"; "f"]%char.

Definition hex_digit (n : N) : ascii :=
  nth (N.to_nat (n mod 16)) hex_digits "0"%char.

(** [n] in lower-case hexadecimal, [width] digits wide. *)
Fixpoint hex_fixed (width : nat) (n : N) : string :=
  match width with
  | 0 => ""
  | S k => hex_fixed k (n / 16) ++ String (hex_digit n) ""
  end.

(** [str(n)] for an [int]. *)
Definition int_str (n : Z) : string := NilZero.string_of_int (Z.to_int n).

(** [str(n)] for a position in a text. *)
Definition nat_str (n : nat) : string := NilZero.string_of_uint (Nat.to_uint n).

(* ================================================================== *)
(** ** [repr] of a [str] *)

(** The characters from U+0080 up that [str.isprintable] refuses: the
    Unicode categories Cc, Cf, Cs, Co, Cn, Zl, Zp and Zs. *)
Definition not_printable : list (N * N) :=
  [
   (128, 160); (173, 173); (888, 889); (896, 899); (907, 907); (909, 909);
   (930, 930); (1328, 1328); (1367, 1368); (1419, 1420); (1424, 1424);
   (1480, 1487); (1515, 1518); (1525, 1541); (1564, 1564); (1757, 1757);
   (1806, 1807); (1867, 1868); (1970, 1983); (2043, 2044); (2094, 2095);
   (2111, 2111); (2140, 2141); (2143, 2143); (2155, 2159); (2191, 2199);
   (2274, 2274); (2436, 2436); (2445, 2446); (2449, 2450); (2473, 2473);
   (2481, 2481); (2483, 2485); (2490, 2491); (2501, 2502); (2505, 2506);
   (2511, 2518); (2520, 2523); (2526, 2526); (2532, 2533); (2559, 2560);
   (2564, 2564); (2571, 2574); (2577, 2578); (2601, 2601); (2609, 2609);
   (2612, 2612); (2615, 2615); (2618, 2619); (2621, 2621); (2627, 2630);
   (2633, 2634); (2638, 2640); (2642, 2648); (2653, 2653); (2655, 2661);
   (2679, 2688); (2692, 2692); (2702, 2702); (2706, 2706); (2729, 2729);
   (2737, 2737); (2740, 2740); (2746, 2747); (2758, 2758); (2762, 2762);
   (2766, 2767); (2769, 2783); (2788, 2789); (2802, 2808); (2816, 2816);
   (2820, 2820); (2829, 2830); (2833, 2834); (2857, 2857); (2865, 2865);
   (2868, 2868); (2874, 2875); (2885, 2886); (2889, 2890); (2894, 2900);
   (2904, 2907); (2910, 2910); (2916, 2917); (2936, 2945); (2948, 2948);
   (2955, 2957); (2961, 2961); (2966, 2968); (2971, 2971); (2973, 2973);
   (2976, 2978); (2981, 2983); (2987, 2989); (3002, 3005); (3011, 3013);
   (3017, 3017); (3022, 3023); (3025, 3030); (3032, 3045); (3067, 3071);
   (3085, 3085); (3089, 3089); (3113, 3113); (3130, 3131); (3141, 3141);
   (3145, 3145); (3150, 3156); (3159, 3159); (3163, 3164); (3166, 3167);
   (3172, 3173); (3184, 3190); (3213, 3213); (3217, 3217); (3241, 3241);
   (3252, 3252); (3258, 3259); (3269, 3269); (3273, 3273); (3278, 3284);
   (3287, 3292); (3295, 3295); (3300, 3301); (3312, 3312); (3315, 3327);
   (3341, 3341); (3345, 3345); (3397, 3397); (3401, 3401); (3408, 3411);
   (3428, 3429); (3456, 3456); (3460, 3460); (3479, 3481); (3506, 3506);
   (3516, 3516); (3518, 3519); (3527, 3529); (3531, 3534); (3541, 3541);
   (3543, 3543); (3552, 3557); (3568, 3569); (3573, 3584); (3643, 3646);
   (3676, 3712); (3715, 3715); (3717, 3717); (3723, 3723); (3748, 3748);
   (3750, 3750); (3774, 3775); (3781, 3781); (3783, 3783); (3790, 3791);
   (3802, 3803); (3808, 3839); (3912, 3912); (3949, 3952); (3992, 3992);
   (4029, 4029); (4045, 4045); (4059, 4095); (4294, 4294); (4296, 4300);
   (4302, 4303); (4681, 4681); (4686, 4687); (4695, 4695); (4697, 4697);
   (4702, 4703); (4745, 4745); (4750, 4751); (4785, 4785); (4790, 4791);
   (4799, 4799); (4801, 4801); (4806, 4807); (4823, 4823); (4881, 4881);
   (4886, 4887); (4955, 4956); (4989, 4991); (5018, 5023); (5110, 5111);
   (5118, 5119); (5760, 5760); (5789, 5791); (5881, 5887); (5910, 5918);
   (5943, 5951); (5972, 5983); (5997, 5997); (6001, 6001); (6004, 6015);
   (6110, 6111); (6122, 6127); (6138, 6143); (6158, 6158); (6170, 6175);
   (6265, 6271); (6315, 6319); (6390, 6399); (6431, 6431); (6444, 6447);
   (6460, 6463); (6465, 6467); (6510, 6511); (6517, 6527); (6572, 6575);
   (6602, 6607); (6619, 6621); (6684, 6685); (6751, 6751); (6781, 6782);
   (6794, 6799); (6810, 6815); (6830, 6831); (6863, 6911); (6989, 6991);
   (7039, 7039); (7156, 7163); (7224, 7226); (7242, 7244); (7305, 7311);
   (7355, 7356); (7368, 7375); (7419, 7423); (7958, 7959); (7966, 7967);
   (8006, 8007); (8014, 8015); (8024, 8024); (8026, 8026); (8028, 8028);
   (8030, 8030); (8062, 8063); (8117, 8117); (8133, 8133); (8148, 8149);
   (8156, 8156); (8176, 8177); (8181, 8181); (8191, 8207); (8232, 8239);
   (8287, 8303); (8306, 8307); (8335, 8335); (8349, 8351); (8385, 8399);
   (8433, 8447); (8588, 8591); (9255, 9279); (9291, 9311); (11124, 11125);
   (11158, 11158); (11508, 11512); (11558, 11558); (11560, 11564);
   (11566, 11567); (11624, 11630); (11633, 11646); (11671, 11679);
   (11687, 11687); (11695, 11695); (11703, 11703); (11711, 11711);
   (11719, 11719); (11727, 11727); (11735, 11735); (11743, 11743);
   (11870, 11903); (11930, 11930); (12020, 12031); (12246, 12271);
   (12284, 12288); (12352, 12352); (12439, 12440); (12544, 12548);
   (12592, 12592); (12687, 12687); (12772, 12783); (12831, 12831);
   (42125, 42127); (42183, 42191); (42540, 42559); (42744, 42751);
   (42955, 42959); (42962, 42962); (42964, 42964); (42970, 42993);
   (43053, 43055); (43066, 43071); (43128, 43135); (43206, 43213);
   (43226, 43231); (43348, 43358); (43389, 43391); (43470, 43470);
   (43482, 43485); (43519, 43519); (43575, 43583); (43598, 43599);
   (43610, 43611); (43715, 43738); (43767, 43776); (43783, 43784);
   (43791, 43792); (43799, 43807); (43815, 43815); (43823, 43823);
   (43884, 43887); (44014, 44015); (44026, 44031); (55204, 55215);
   (55239, 55242); (55292, 63743); (64110, 64111); (64218, 64255);
   (64263, 64274); (64280, 64284); (64311, 64311); (64317, 64317);
   (64319, 64319); (64322, 64322); (64325, 64325); (64451, 64466);
   (64912, 64913); (64968, 64974); (64976, 65007); (65050, 65055);
   (65107, 65107); (65127, 65127); (65132, 65135); (65141, 65141);
   (65277, 65280); (65471, 65473); (65480, 65481); (65488, 65489);
   (65496, 65497); (65501, 65503); (65511, 65511); (65519, 65531);
   (65534, 65535); (65548, 65548); (65575, 65575); (65595, 65595);
   (65598, 65598); (65614, 65615); (65630, 65663); (65787, 65791);
   (65795, 65798); (65844, 65846); (65935, 65935); (65949, 65951);
   (65953, 65999); (66046, 66175); (66205, 66207); (66257, 66271);
   (66300, 66303); (66340, 66348); (66379, 66383); (66427, 66431);
   (66462, 66462); (66500, 66503); (66518, 66559); (66718, 66719);
   (66730, 66735); (66772, 66775); (66812, 66815); (66856, 66863);
   (66916, 66926); (66939, 66939); (66955, 66955); (66963, 66963);
   (66966, 66966); (66978, 66978); (66994, 66994); (67002, 67002);
   (67005, 67071); (67383, 67391); (67414, 67423); (67432, 67455);
   (67462, 67462); (67505, 67505); (67515, 67583); (67590, 67591);
   (67593, 67593); (67638, 67638); (67641, 67643); (67645, 67646);
   (67670, 67670); (67743, 67750); (67760, 67807); (67827, 67827);
   (67830, 67834); (67868, 67870); (67898, 67902); (67904, 67967);
   (68024, 68027); (68048, 68049); (68100, 68100); (68103, 68107);
   (68116, 68116); (68120, 68120); (68150, 68151); (68155, 68158);
   (68169, 68175); (68185, 68191); (68256, 68287); (68327, 68330);
   (68343, 68351); (68406, 68408); (68438, 68439); (68467, 68471);
   (68498, 68504); (68509, 68520); (68528, 68607); (68681, 68735);
   (68787, 68799); (68851, 68857); (68904, 68911); (68922, 69215);
   (69247, 69247); (69290, 69290); (69294, 69295); (69298, 69375);
   (69416, 69423); (69466, 69487); (69514, 69551); (69580, 69599);
   (69623, 69631); (69710, 69713); (69750, 69758); (69821, 69821);
   (69827, 69839); (69865, 69871); (69882, 69887); (69941, 69941);
   (69960, 69967); (70007, 70015); (70112, 70112); (70133, 70143);
   (70162, 70162); (70207, 70271); (70279, 70279); (70281, 70281);
   (70286, 70286); (70302, 70302); (70314, 70319); (70379, 70383);
   (70394, 70399); (70404, 70404); (70413, 70414); (70417, 70418);
   (70441, 70441); (70449, 70449); (70452, 70452); (70458, 70458);
   (70469, 70470); (70473, 70474); (70478, 70479); (70481, 70486);
   (70488, 70492); (70500, 70501); (70509, 70511); (70517, 70655);
   (70748, 70748); (70754, 70783); (70856, 70863); (70874, 71039);
   (71094, 71095); (71134, 71167); (71237, 71247); (71258, 71263);
   (71277, 71295); (71354, 71359); (71370, 71423); (71451, 71452);
   (71468, 71471); (71495, 71679); (71740, 71839); (71923, 71934);
   (71943, 71944); (71946, 71947); (71956, 71956); (71959, 71959);
   (71990, 71990); (71993, 71994); (72007, 72015); (72026, 72095);
   (72104, 72105); (72152, 72153); (72165, 72191); (72264, 72271);
   (72355, 72367); (72441, 72703); (72713, 72713); (72759, 72759);
   (72774, 72783); (72813, 72815); (72848, 72849); (72872, 72872);
   (72887, 72959); (72967, 72967); (72970, 72970); (73015, 73017);
   (73019, 73019); (73022, 73022); (73032, 73039); (73050, 73055);
   (73062, 73062); (73065, 73065); (73103, 73103); (73106, 73106);
   (73113, 73119); (73130, 73439); (73465, 73647); (73649, 73663);
   (73714, 73726); (74650, 74751); (74863, 74863); (74869, 74879);
   (75076, 77711); (77811, 77823); (78895, 82943); (83527, 92159);
   (92729, 92735); (92767, 92767); (92778, 92781); (92863, 92863);
   (92874, 92879); (92910, 92911); (92918, 92927); (92998, 93007);
   (93018, 93018); (93026, 93026); (93048, 93052); (93072, 93759);
   (93851, 93951); (94027, 94030); (94088, 94094); (94112, 94175);
   (94181, 94191); (94194, 94207); (100344, 100351); (101590, 101631);
   (101641, 110575); (110580, 110580); (110588, 110588); (110591, 110591);
   (110883, 110927); (110931, 110947); (110952, 110959); (111356, 113663);
   (113771, 113775); (113789, 113791); (113801, 113807); (113818, 113819);
   (113824, 118527); (118574, 118575); (118599, 118607); (118724, 118783);
   (119030, 119039); (119079, 119080); (119155, 119162); (119275, 119295);
   (119366, 119519); (119540, 119551); (119639, 119647); (119673, 119807);
   (119893, 119893); (119965, 119965); (119968, 119969); (119971, 119972);
   (119975, 119976); (119981, 119981); (119994, 119994); (119996, 119996);
   (120004, 120004); (120070, 120070); (120075, 120076); (120085, 120085);
   (120093, 120093); (120122, 120122); (120127, 120127); (120133, 120133);
   (120135, 120137); (120145, 120145); (120486, 120487); (120780, 120781);
   (121484, 121498); (121504, 121504); (121520, 122623); (122655, 122879);
   (122887, 122887); (122905, 122906); (122914, 122914); (122917, 122917);
   (122923, 123135); (123181, 123183); (123198, 123199); (123210, 123213);
   (123216, 123535); (123567, 123583); (123642, 123646); (123648, 124895);
   (124903, 124903); (124908, 124908); (124911, 124911); (124927, 124927);
   (125125, 125126); (125143, 125183); (125260, 125263); (125274, 125277);
   (125280, 126064); (126133, 126208); (126270, 126463); (126468, 126468);
   (126496, 126496); (126499, 126499); (126501, 126502); (126504, 126504);
   (126515, 126515); (126520, 126520); (126522, 126522); (126524, 126529);
   (126531, 126534); (126536, 126536); (126538, 126538); (126540, 126540);
   (126544, 126544); (126547, 126547); (126549, 126550); (126552, 126552);
   (126554, 126554); (126556, 126556); (126558, 126558); (126560, 126560);
   (126563, 126563); (126565, 126566); (126571, 126571); (126579, 126579);
   (126584, 126584); (126589, 126589); (126591, 126591); (126602, 126602);
   (126620, 126624); (126628, 126628); (126634, 126634); (126652, 126703);
   (126706, 126975); (127020, 127023); (127124, 127135); (127151, 127152);
   (127168, 127168); (127184, 127184); (127222, 127231); (127406, 127461);
   (127491, 127503); (127548, 127551); (127561, 127567); (127570, 127583);
   (127590, 127743); (128728, 128732); (128749, 128751); (128765, 128767);
   (128884, 128895); (128985, 128991); (129004, 129007); (129009, 129023);
   (129036, 129039); (129096, 129103); (129114, 129119); (129160, 129167);
   (129198, 129199); (129202, 129279); (129620, 129631); (129646, 129647);
   (129653, 129655); (129661, 129663); (129671, 129679); (129709, 129711);
   (129723, 129727); (129734, 129743); (129754, 129759); (129768, 129775);
   (129783, 129791); (129939, 129939); (129995, 130031); (130042, 131071);
   (173792, 173823); (177977, 177983); (178206, 178207); (183970, 183983);
   (191457, 194559); (195102, 196607); (201547, 917759); (918000, 1114111)
  ]%N.

Definition in_ranges (cp : N) (ranges : list (N * N)) : bool :=
  existsb (fun range => (fst range <=? cp)%N && (cp <=? snd range)%N) ranges.

(** [ch.isprintable()] for a character from U+0080 up; the surrogates,
    which the table holds, are tested first. *)
Definition is_printable (cp : N) : bool :=
  negb (is_surrogate cp) && negb (in_ranges cp not_printable).

(** One character of [repr(str)] with [q] the chosen quote. *)
Definition repr_char (q : ascii) (cp : N) : string :=
  if (cp =? N_of_ascii q)%N || (cp =? 92)%N
  then String BACKSLASH (String (ascii_of_N cp) "")
  else if (cp =? 9)%N then String BACKSLASH "t"
  else if (cp =? 10)%N then String BACKSLASH "n"
  else if (cp =? 13)%N then String BACKSLASH "r"
  else if (cp <? 32)%N || (cp =? 127)%N
  then String BACKSLASH ("x" ++ hex_fixed 2 cp)
  else if (cp <? 127)%N then String (ascii_of_N cp) ""
  else if is_printable cp then utf8 cp
  else if (cp <=? 255)%N then String BACKSLASH ("x" ++ hex_fixed 2 cp)
  else if (cp <=? 65535)%N then String BACKSLASH ("u" ++ hex_fixed 4 cp)
  else String BACKSLASH ("U" ++ hex_fixed 8 cp).

(** [repr(s)] for a [str]: single quotes unless the text has a single
    quote and no double quote. *)
Definition str_repr (s : string) : string :=
  let q := if has_char SQUOTE s && negb (has_char DQUOTE s)
           then DQUOTE else SQUOTE in
  String q (String.concat "" (map (repr_char q) (code_points s))
            ++ String q "").
(* ================================================================== *)
(** ** Python values, as [json.loads] produces them

    An [int] stays within the digit limit and the nesting within the
    recursion limit that [json.loads] enforces, so that [str()] of a
    value does not raise. *)

(** The characters [repr] of a [float] is made of. *)
Inductive float_char : Type :=
| F0 | F1 | F2 | F3 | F4 | F5 | F6 | F7 | F8 | F9
| Fpoint | Fe | Fplus | Fminus | Fi | Fn | Ff | Fa.

Definition float_char_ascii (c : float_char) : ascii :=
  match c with
  | F0 => "0" | F1 => "1" | F2 => "2" | F3 => "3" | F4 => "4"
  | F5 => "5" | F6 => "6" | F7 => "7" | F8 => "8" | F9 => "9"
  | Fpoint => "." | Fe => "e" | Fplus => "+" | Fminus => "-"
  | Fi => "i" | Fn => "n" | Ff => "f" | Fa => "a"
  end%char.

Definition float_str (text : list float_char) : string :=
  string_of_list_ascii (map float_char_ascii text).

#[local] Set Warnings "-register-all".

Inductive pyval : Type :=
| PNone
| PBool (b : bool)
| PInt (n : Z)
| PFloat (nonzero : bool) (text : list float_char)
| PStr (s : string)
| PList (items : list pyval)
| PDict (entries : list (string * pyval)).

(** Induction on values, through the lists and the dicts. *)
Section ValueInduction.

Variable P : pyval -> Prop.
Hypothesis case_none : P PNone.
Hypothesis case_bool : forall b, P (PBool b).
Hypothesis case_int : forall n, P (PInt n).
Hypothesis case_float : forall nonzero text, P (PFloat nonzero text).
Hypothesis case_str : forall s, P (PStr s).
Hypothesis case_list : forall items, Forall P items -> P (PList items).
Hypothesis case_dict :
  forall entries, Forall (fun entry => P (snd entry)) entries ->
                  P (PDict entries).

Fixpoint pyval_induction (v : pyval) : P v :=
  match v with
  | PNone => case_none
  | PBool b => case_bool b
  | PInt n => case_int n
  | PFloat nonzero text => case_float nonzero text
  | PStr s => case_str s
  | PList items =>
      case_list items
        ((fix each (l : list pyval) : Forall P l :=
            match l with
            | [] => Forall_nil P
            | x :: rest => Forall_cons x (pyval_induction x) (each rest)
            end) items)
  | PDict entries =>
      case_dict entries
        ((fix each (l : list (string * pyval))
            : Forall (fun entry => P (snd entry)) l :=
            match l with
            | [] => Forall_nil _
            | (k, x) :: rest =>
                Forall_cons (k, x) (pyval_induction x) (each rest)
            end) entries)
  end.

End ValueInduction.

(** [bool(v)], the test behind [not v] and [if v:]. *)
Definition truthy (v : pyval) : bool :=
  match v with
  | PNone => false
  | PBool b => b
  | PInt n => negb (Z.eqb n 0)
  | PFloat nonzero _ => nonzero
  | PStr s => negb (String.eqb s "")
  | PList items => match items with [] => false | _ :: _ => true end
  | PDict entries => match entries with [] => false | _ :: _ => true end
  end.

(** [repr(v)] *)
Fixpoint py_repr (v : pyval) : string :=
  match v with
  | PNone => "None"
  | PBool true => "True"
  | PBool false => "False"
  | PInt n => int_str n
  | PFloat _ text => float_str text
  | PStr s => str_repr s
  | PList items => "[" ++ join ", " (map py_repr items) ++ "]"
  | PDict entries =>
      "{" ++ join ", " (map (fun kv => let '(k, x) := kv in
                                       str_repr k ++ ": " ++ py_repr x)
                            entries) ++ "}"
  end.

(** [str(v)], which is what an f-string field [{v}] inserts: the text
    itself for a [str], [repr] for everything else here. *)
Definition py_str (v : pyval) : string :=
  match v with
  | PStr s => s
  | _ => py_repr v
  end.

(** [type(v).__name__] *)
Definition type_name (v : pyval) : string :=
  match v with
  | PNone => "NoneType"
  | PBool _ => "bool"
  | PInt _ => "int"
  | PFloat _ _ => "float"
  | PStr _ => "str"
  | PList _ => "list"
  | PDict _ => "dict"
  end.

(** First binding of [key] in a dict. *)
Fixpoint dict_lookup (key : string) (entries : list (string * pyval))
  : option pyval :=
  match entries with
  | [] => None
  | (k, x) :: rest => if String.eqb key k then Some x else dict_lookup key rest
  end.

(** The dict without its bindings of [key]. *)
Fixpoint dict_remove (key : string) (entries : list (string * pyval))
  : list (string * pyval) :=
  match entries with
  | [] => []
  | (k, x) :: rest =>
      if String.eqb key k then dict_remove key rest
      else (k, x) :: dict_remove key rest
  end.

(** Is the [str] ["s"] an element of the list ([==] between a [str] and a
    value of another type is false). *)
Fixpoint list_has_str (s : string) (items : list pyval) : bool :=
  match items with
  | [] => false
  | PStr t :: rest => String.eqb s t || list_has_str s rest
  | _ :: rest => list_has_str s rest
  end.

(* ================================================================== *)
(** ** Exceptions and results *)

(** [except Exception] catches the classes that derive from [Exception];
    [KeyboardInterrupt], [SystemExit] and [GeneratorExit] derive from
    [BaseException] only. *)
Inductive exc_root : Type := FromException | FromBaseExceptionOnly.

Record pyexc : Type := mk_exc {
  exc_root_of : exc_root;
  exc_class : string;   (* qualified class name, as [type(e)] shows it *)
  exc_str : string      (* [str(e)] *)
}.

Definition TypeError (msg : string) : pyexc := mk_exc FromException "TypeError" msg.
Definition KeyError (key : string) : pyexc :=
  mk_exc FromException "KeyError" (str_repr key).
Definition AttributeError (msg : string) : pyexc :=
  mk_exc FromException "AttributeError" msg.
Definition ValueError (msg : string) : pyexc := mk_exc FromException "ValueError" msg.

(** What the UTF-8 encoder raises for the characters from position
    [start] up to, not including, position [stop], the first of which is
    the surrogate [cp]. *)
Definition UnicodeEncodeError (start stop : nat) (cp : N) : pyexc :=
  mk_exc FromException "UnicodeEncodeError"
    (if Nat.eqb stop (S start)
     then "'utf-8' codec can't encode character '\u" ++ hex_fixed 4 cp
          ++ "' in position " ++ nat_str start ++ ": surrogates not allowed"
     else "'utf-8' codec can't encode characters in position "
          ++ nat_str start ++ "-" ++ nat_str (stop - 1)
          ++ ": surrogates not allowed").

Inductive result (A : Type) : Type :=
| Ok (a : A)
| Raise (e : pyexc).
Arguments Ok {A} a.
Arguments Raise {A} e.

(** [key in v] for a [str] key. *)
Definition py_in (key : string) (v : pyval) : result bool :=
  match v with
  | PDict entries =>
      Ok (match dict_lookup key entries with Some _ => true | None => false end)
  | PList items => Ok (list_has_str key items)
  | PStr s => Ok (str_contains key s)
  | _ => Raise (TypeError ("argument of type '" ++ type_name v
                            ++ "' is not iterable"))
  end.

(** [v[key]] for a [str] key. *)
Definition py_getitem (v : pyval) (key : string) : result pyval :=
  match v with
  | PDict entries =>
      match dict_lookup key entries with
      | Some x => Ok x
      | None => Raise (KeyError key)
      end
  | PStr _ => Raise (TypeError "string indices must be integers, not 'str'")
  | PList _ =>
      Raise (TypeError "list indices must be integers or slices, not str")
  | _ => Raise (TypeError ("'" ++ type_name v
                            ++ "' object is not subscriptable"))
  end.

(** [v.get(key, default)] *)
Definition py_get (v : pyval) (key : string) (default : pyval) : result pyval :=
  match v with
  | PDict entries =>
      Ok (match dict_lookup key entries with Some x => x | None => default end)
  | _ => Raise (AttributeError ("'" ++ type_name v
                                 ++ "' object has no attribute 'get'"))
  end.

(* ================================================================== *)
(** ** The world the views run in *)

(** [genai.types.GenerationConfig(temperature=..., max_output_tokens=...)];
    the temperature is kept as the decimal literal of the source. *)
Record GenerationConfig : Type := mk_config {
  temperature : string;
  max_output_tokens : Z
}.

(** What [model.generate_content] hands back: an object whose [.text]
    property yields the generated text or raises (a blocked candidate). *)
Record GenerateContentResponse : Type := mk_gen_response {
  text : result string
}.

(** The Generation Provider behind [model]: for a prompt and a
    configuration it returns a response object or raises. *)
Definition provider : Type :=
  string -> GenerationConfig -> result GenerateContentResponse.

(** The error handler of standard output, and what a view can change:
    the lines printed on standard output and the calls made to the
    provider, oldest first. *)
Record world : Type := mk_world {
  stdout_errors : error_handler;
  stdout : list string;
  provider_calls : list (string * GenerationConfig)
}.

(** A computation returns or raises, and leaves a world behind in both
    cases: what was printed before an exception stays printed. *)
Definition M (A : Type) : Type := world -> result A * world.

Definition ret {A : Type} (a : A) : M A := fun w => (Ok a, w).

Definition raise {A : Type} (e : pyexc) : M A := fun w => (Raise e, w).

Definition bind {A B : Type} (m : M A) (k : A -> M B) : M B :=
  fun w =>
    match m w with
    | (Ok a, w') => k a w'
    | (Raise e, w') => (Raise e, w')
    end.

Definition lift {A : Type} (r : result A) : M A := fun w => (r, w).

Notation "x <- m ;; k" := (bind m (fun x => k))
  (at level 61, m at next level, right associativity).
Notation "m ;; k" := (bind m (fun _ => k))
  (at level 61, right associativity).

(** [try: body  except Exception as e: handler(e)] *)
Definition try_except_Exception {A : Type} (body : M A) (handler : pyexc -> M A)
  : M A :=
  fun w =>
    match body w with
    | (Ok a, w') => (Ok a, w')
    | (Raise e, w') =>
        match exc_root_of e with
        | FromException => handler e w'
        | FromBaseExceptionOnly => (Raise e, w')
        end
    end.

(** [print(line)]: the text is encoded as a whole before any of it is
    written, so a refused character leaves standard output as it was. *)
Definition print (line : string) : M unit :=
  fun w =>
    match first_refused (stdout_errors w) line 0 with
    | None =>
        (Ok tt,
         mk_world (stdout_errors w) (stdout w ++ [line]) (provider_calls w))
    | Some (start, stop, cp) => (Raise (UnicodeEncodeError start stop cp), w)
    end.

(** [model.generate_content(prompt, generation_config=config)] *)
Definition generate_content (model : provider) (prompt : string)
    (config : GenerationConfig) : M GenerateContentResponse :=
  fun w =>
    (model prompt config,
     mk_world (stdout_errors w) (stdout w)
       (provider_calls w ++ [(prompt, config)])).

(** What a view returns: [jsonify(body), status]. *)
Record response : Type := mk_response {
  body : pyval;
  status : Z
}.

Definition jsonify (entries : list (string * pyval)) : pyval := PDict entries.

(** The Flask request as the views see it.  [request.get_json()] is
    Flask's: it returns the parsed body, or raises an [HTTPException]
    ([BadRequest] for a body that is not JSON, [UnsupportedMediaType] for
    another content type); its outcome is part of the request. *)
Record request : Type := mk_request {
  method : string;
  path : string;
  get_json : result pyval
}.

(* ================================================================== *)
(** ** Module level: the provider key *)

Record app_config : Type := mk_app_config {
  API_KEY : string;
  model_name : string
}.

(** The statements run on import: [os.getenv('GOOGLE_API_KEY')] is [None]
    or a [str], and [not API_KEY] holds for [None] and for the empty
    [str]. *)
Definition startup (getenv_GOOGLE_API_KEY : option string) : result app_config :=
  let not_API_KEY :=
    match getenv_GOOGLE_API_KEY with
    | None => true
    | Some key => negb (truthy (PStr key))
    end in
  match not_API_KEY, getenv_GOOGLE_API_KEY with
  | false, Some key => Ok (mk_app_config key "gemini-2.0-flash-exp")
  | _, _ =>
      Raise (ValueError "GOOGLE_API_KEY not found in environment variables!")
  end.

Definition SYSTEM_PROMPT : string := "
You are RampageAI, an advanced AI assistant specializing in finance. Always provide concise and accurate answers unless the user specifically requests detailed explanations. Communicate in clear, simple language, breaking down financial concepts so that users of any expertise level can understand.

Your guidance must:
- Be based on sound financial principles, current best practices, and reference credible sources when possible.
- Stay objective and impartial—never promote specific products, services, or brands.
- Fully respect user privacy and data security standards. Never request sensitive information unless essential and permitted.
- Avoid personalized investment or legal advice; instead, advise users to consult certified professionals for such needs.
- Support core financial tasks like budgeting, reporting, forecasting, risk assessment, cash flow analysis, and providing actionable financial insights.
- Ask clarifying questions if user input is ambiguous, and refine your answers based on user feedback or follow-up questions.
- Remain up-to-date with market trends and compliance requirements as relevant to queries.

Your main goal is to help users make confident, informed financial decisions with efficient and trustworthy support.
".

(* ================================================================== *)
(** ** The views *)

(** [@app.route('/health', methods=['GET'])] *)
Definition health_check : M response :=
  ret (mk_response
         (jsonify [("status", PStr "OK");
                   ("message", PStr "RampageAI Chatbot API is running")])
         200).

(** One [if key in user_context: context_info += f"{label}{user_context[key]}"]. *)
Definition add_context_line (key label : string) (user_context : pyval)
    (context_info : string) : result string :=
  match py_in key user_context with
  | Raise e => Raise e
  | Ok false => Ok context_info
  | Ok true =>
      match py_getitem user_context key with
      | Raise e => Raise e
      | Ok x => Ok (context_info ++ label ++ py_str x)
      end
  end.

Definition result_bind {A B : Type} (r : result A) (k : A -> result B)
  : result B :=
  match r with
  | Ok a => k a
  | Raise e => Raise e
  end.

(** The block under [# Build context-aware prompt]. *)
Definition build_context_info (user_context : pyval) : result string :=
  let context_info := "" in
  if truthy user_context then
    result_bind
      (add_context_line "transactions"
         (nl ++ nl ++ "User's recent transactions:" ++ nl)
         user_context context_info) (fun context_info =>
    result_bind
      (add_context_line "balance"
         (nl ++ nl ++ "Current balance: ₹")
         user_context context_info) (fun context_info =>
    result_bind
      (add_context_line "monthly_expenses"
         (nl ++ nl ++ "Monthly expenses: ₹")
         user_context context_info) (fun context_info =>
      add_context_line "monthly_income"
         (nl ++ "Monthly income: ₹")
         user_context context_info)))
  else Ok context_info.

Definition generation_config : GenerationConfig := mk_config "0.7" 1024.

(** The [try:] suite of [chat]. *)
Definition chat_try (request : request) (model : provider) : M response :=
  print "📩 Received chat request" ;;
  data <- lift (get_json request) ;;
  print ("📦 Request data: " ++ py_str data) ;;
  invalid <- lift (if negb (truthy data) then Ok true
                   else result_bind (py_in "message" data)
                          (fun found => Ok (negb found))) ;;
  if invalid : bool then
    ret (mk_response
           (jsonify [("success", PBool false);
                     ("error", PStr "Message is required")])
           400)
  else
    user_message <- lift (py_getitem data "message") ;;
    user_context <- lift (py_get data "context" (PDict [])) ;;
    print ("💬 User message: " ++ py_str user_message) ;;
    print ("🔍 Context: " ++ py_str user_context) ;;
    context_info <- lift (build_context_info user_context) ;;
    let full_prompt :=
      SYSTEM_PROMPT ++ context_info ++ nl ++ nl ++ "User: "
                    ++ py_str user_message in
    print "🤖 Calling Gemini API..." ;;
    response <- generate_content model full_prompt generation_config ;;
    print "✅ Got response from Gemini" ;;
    response_text <- lift (text response) ;;
    ret (mk_response
           (jsonify [("success", PBool true);
                     ("response", PStr response_text)])
           200).

(** The [except Exception as e:] suite of [chat];
    [traceback.print_exc()] writes to standard error, which [world] does
    not record. *)
Definition chat_except (e : pyexc) : M response :=
  print ("❌ ERROR: " ++ exc_str e) ;;
  print ("❌ ERROR TYPE: <class '" ++ exc_class e ++ "'>") ;;
  ret (mk_response
         (jsonify [("success", PBool false);
                   ("error", PStr (exc_str e))])
         500).

(** [@app.route('/chat', methods=['POST'])] *)
Definition chat (request : request) (model : provider) : M response :=
  try_except_Exception (chat_try request model) chat_except.

(** The two rules registered with [@app.route]; a rule for [GET] also
    serves [HEAD].  Requests that match no rule are answered by Flask
    without entering this module. *)
Inductive view : Type := view_health_check | view_chat.

Definition url_map (method path : string) : option view :=
  if String.eqb path "/health" && (String.eqb method "GET" || String.eqb method "HEAD")
  then Some view_health_check
  else if String.eqb path "/chat" && String.eqb method "POST"
  then Some view_chat
  else None.

Definition dispatch_request (request : request) (model : provider)
  : option (M response) :=
  match url_map (method request) (path request) with
  | Some view_health_check => Some health_check
  | Some view_chat => Some (chat request model)
  | None => None
  end.

(* ================================================================== *)
(** ** The prompt as the specification words it *)

(** The recognized context keys in their fixed order, each with the text
    that precedes its value. *)
Definition context_fields : list (string * string) :=
  [("transactions", nl ++ nl ++ "User's recent transactions:" ++ nl);
   ("balance", nl ++ nl ++ "Current balance: ₹");
   ("monthly_expenses", nl ++ nl ++ "Monthly expenses: ₹");
   ("monthly_income", nl ++ "Monthly income: ₹")].

(** The label line of one key: nothing when the key is absent. *)
Definition label_line (label : string) (value : option pyval) : string :=
  match value with
  | Some x => label ++ py_str x
  | None => ""
  end.

(** One label line per present recognized key, in the fixed order. *)
Definition context_lines (context : list (string * pyval)) : string :=
  String.concat ""
    (map (fun field => label_line (snd field) (dict_lookup (fst field) context))
         context_fields).

Definition recognized (key : string) : bool :=
  existsb (String.eqb key) (map fst context_fields).

(** The context with every unrecognized key removed. *)
Definition drop_unrecognized (context : list (string * pyval))
  : list (string * pyval) :=
  filter (fun entry => recognized (fst entry)) context.

(** The bodies the validation of [chat] turns away on a standard output
    with this handler: a falsy value, an object without key [message],
    an array in which ["message"] is no element, and a string in which
    it is no substring and which the [print] of the body can encode. *)
Definition lacks_message (handler : error_handler) (data : pyval) : Prop :=
  truthy data = false \/
  (exists entries, data = PDict entries /\ dict_lookup "message" entries = None) \/
  (exists items, data = PList items /\ list_has_str "message" items = false) \/
  (exists s, data = PStr s /\ str_contains "message" s = false /\
             encodes handler s = true).

Definition message_required : response :=
  mk_response
    (jsonify [("success", PBool false); ("error", PStr "Message is required")])
    400.

Definition server_error (description : string) : response :=
  mk_response
    (jsonify [("success", PBool false); ("error", PStr description)])
    500.

(** The prompts handed to the provider so far, oldest first. *)
Definition prompts_sent (w : world) : list string := map fst (provider_calls w).

(** The response of the [except] suite for [e] on a standard output
    with this handler. *)
Definition except_reply (handler : error_handler) (e : pyexc)
  : result response :=
  fst (chat_except e (mk_world handler [] [])).

(** The response of [chat] once an exception [e] has left its [try:]
    suite. *)
Definition outcome_after (handler : error_handler) (e : pyexc)
  : result response :=
  match exc_root_of e with
  | FromException => except_reply handler e
  | FromBaseExceptionOnly => Raise e
  end.

(** The response of [chat] once [prompt] is assembled. *)
Definition reply_to_prompt (handler : error_handler) (model : provider)
    (prompt : string) : result response :=
  match model prompt generation_config with
  | Ok generated =>
      match text generated with
      | Ok response_text =>
          Ok (mk_response
                (jsonify [("success", PBool true);
                          ("response", PStr response_text)])
                200)
      | Raise e => outcome_after handler e
      end
  | Raise e => outcome_after handler e
  end.

(** Can the view print [v] inside an f-string? *)
Definition stdout_accepts (w : world) (v : pyval) : bool :=
  encodes (stdout_errors w) (py_str v).

(** Can the [except] suite print [e] whatever the handler is? *)
Definition exc_printable (e : pyexc) : bool :=
  negb (has_surrogate (exc_str e)) && negb (has_surrogate (exc_class e)).

(** A computation is steady when it leaves the handler of standard
    output alone and its result depends on the world through that
    handler only. *)
Definition steady {A : Type} (m : M A) : Prop :=
  (forall w, stdout_errors (snd (m w)) = stdout_errors w) /\
  (forall w1 w2, stdout_errors w1 = stdout_errors w2 ->
                 fst (m w1) = fst (m w2)).

(** The world after [line] was printed. *)
Definition printed (w : world) (line : string) : world :=
  mk_world (stdout_errors w) (stdout w ++ [line]) (provider_calls w).

(** The bytes of a text without a surrogate, and such that no text put
    after them makes one. *)
Fixpoint ends_with_lead (s : string) : bool :=
  match s with
  | EmptyString => false
  | String c EmptyString => (N_of_ascii c =? 237)%N
  | String _ rest => ends_with_lead rest
  end.

Definition clean (s : string) : bool :=
  negb (has_surrogate s) && negb (ends_with_lead s).

Fixpoint all_ascii (s : string) : bool :=
  match s with
  | EmptyString => true
  | String c rest => (N_of_ascii c <? 128)%N && all_ascii rest
  end.

(** [data.get('context', {})] on an object. *)
Definition context_of (entries : list (string * pyval)) : pyval :=
  match dict_lookup "context" entries with
  | Some x => x
  | None => PDict []
  end.

(** The provider calls of [w] followed by one call with [prompt] and the
    fixed configuration. *)
Definition calls_with (w : world) (prompt : string)
  : list (string * GenerationConfig) :=
  (provider_calls w ++ [(prompt, generation_config)])%list.

(* ================================================================== *)
(** ** Sample inputs *)

Definition empty_world : world := mk_world strict [] [].

(** The world of a process started under the C locale. *)
Definition posix_world : world := mk_world surrogateescape [] [].

(** U+D800, which no handler lets through, and U+DC80, which
    [surrogateescape] does. *)
Definition high_surrogate : string := bytes [237; 160; 128]%N.
Definition escaped_byte : string := bytes [237; 178; 128]%N.

(** A provider that answers every prompt with the same text. *)
Definition sample_model : provider :=
  fun _ _ => Ok (mk_gen_response (Ok "A SIP is a systematic investment plan.")).

(** A provider whose call raises [e]. *)
Definition failing_model (e : pyexc) : provider := fun _ _ => Raise e.

Definition quota_exceeded : pyexc :=
  mk_exc FromException "google.api_core.exceptions.ResourceExhausted"
    "429 Resource has been exhausted".

(** [POST /chat] with a body that parses to [data]. *)
Definition post_chat (data : pyval) : request :=
  mk_request "POST" "/chat" (Ok data).

Definition sample_chat_request : request :=
  post_chat (PDict [("message", PStr "What is a SIP?")]).

Definition sample_context_request : request :=
  post_chat
    (PDict [("message", PStr "Can I afford a trip?");
            ("context",
             PDict [("monthly_income", PInt 4000); ("plan", PStr "gold");
                    ("balance", PInt 2500)])]).

(** [sample_context_request] without its unrecognized key [plan]. *)
Definition sample_recognized_request : request :=
  post_chat
    (PDict [("message", PStr "Can I afford a trip?");
            ("context",
             PDict [("monthly_income", PInt 4000); ("balance", PInt 2500)])]).

(** A body whose context holds the two keys whose separators differ. *)
Definition sample_budget_request : request :=
  post_chat
    (PDict [("message", PStr "Can I save more?");
            ("context",
             PDict [("monthly_income", PInt 4000);
                    ("monthly_expenses", PInt 1800)])]).

(** [sample_chat_request] with [context] set to [null]. *)
Definition sample_null_context_request : request :=
  post_chat (PDict [("message", PStr "What is a SIP?"); ("context", PNone)]).

(* ================================================================== *)
(** ** The [__main__] block *)

(** What [main] hands to [app.run], which then serves until the process
    ends. *)
Record run_arguments : Type := mk_run_arguments {
  host : string;
  port : Z;
  debug : bool
}.

(** The suite under [if __name__ == '__main__':], up to the call of
    [app.run]. *)
Definition main (config : app_config) : M run_arguments :=
  print "🚀 RampageAI Chatbot API starting on port 5001..." ;;
  print ("📝 Using API Key: " ++ take_chars 20 (API_KEY config) ++ "...") ;;
  ret (mk_run_arguments "0.0.0.0" 5001 true).

(* ================================================================== *)
(** ** Shapes used in the further properties *)

(** The three envelopes a [/chat] response can have. *)
Definition well_formed_reply (r : response) : Prop :=
  (exists generated_text,
     r = mk_response
           (PDict [("success", PBool true); ("response", PStr generated_text)])
           200) \/
  r = message_required \/
  (exists description, r = server_error description).

(** [None], a [bool], an [int] or a [float]: the values on which [in]
    raises. *)
Definition is_scalar (v : pyval) : bool :=
  match v with
  | PNone | PBool _ | PInt _ | PFloat _ _ => true
  | PStr _ | PList _ | PDict _ => false
  end.

(** What [v["..."]] says on a [str] and on a [list]. *)
Definition bad_index_message (v : pyval) : string :=
  match v with
  | PStr _ => "string indices must be integers, not 'str'"
  | _ => "list indices must be integers or slices, not str"
  end.

(** The prompt of an accepted request: preamble, context text, and the
    line of the user. *)
Definition full_prompt_of (context_info : string) (user_message : pyval)
  : string :=
  SYSTEM_PROMPT ++ context_info ++ nl ++ nl ++ "User: " ++ py_str user_message.

(** The separator that introduces the user's line. *)
Definition user_marker : string := nl ++ nl ++ "User: ".

(** A body with a message and a context that holds only
    [monthly_income]. *)
Definition income_request (income message : string) : request :=
  post_chat
    (PDict [("message", PStr message);
            ("context", PDict [("monthly_income", PStr income)])]).

(** What Werkzeug raises for a body that is not JSON. *)
Definition bad_request : pyexc :=
  mk_exc FromException "werkzeug.exceptions.BadRequest"
    "400 Bad Request: The browser (or proxy) sent a request that this server could not understand.".

(** A provider whose response object has no readable text. *)
Definition blocked_model : provider :=
  fun _ _ => Ok (mk_gen_response (Raise (ValueError "The response was blocked."))).


(* ================================================================== *)
(** ** Helper lemmas: texts *)

Lemma append_assoc (a b c : string) : (a ++ b) ++ c = a ++ b ++ c.
Proof.
  induction a as [|ch a IH]; simpl; [reflexivity | now rewrite IH].
Qed.

Lemma append_empty_r (a : string) : a ++ "" = a.
Proof.
  induction a as [|ch a IH]; simpl; [reflexivity | now rewrite IH].
Qed.

Lemma length_append (a b : string) :
  String.length (a ++ b) = String.length a + String.length b.
Proof.
  induction a as [|ch a IH]; simpl; [reflexivity | now rewrite IH].
Qed.

Lemma starts_trail_app (a b : string) :
  starts_trail (a ++ b) =
    match a with EmptyString => starts_trail b | _ => starts_trail a end.
Proof. destruct a; reflexivity. Qed.

Lemma ends_with_lead_app (a b : string) :
  ends_with_lead (a ++ b) =
    match b with EmptyString => ends_with_lead a | _ => ends_with_lead b end.
Proof.
  induction a as [|c a IH].
  - destruct b; reflexivity.
  - destruct b as [|d b]; [now rewrite append_empty_r|].
    cbn [String.append]. destruct a as [|c' a]; [reflexivity|].
    exact IH.
Qed.

(** A surrogate of [a ++ b] lies in [a], in [b], or across the two. *)
Lemma has_surrogate_app (a b : string) :
  has_surrogate (a ++ b) =
    has_surrogate a || (ends_with_lead a && starts_trail b) || has_surrogate b.
Proof.
  induction a as [|c a IH]; [reflexivity|].
  cbn [String.append has_surrogate]. rewrite IH, starts_trail_app.
  destruct a as [|c' a].
  - cbn. destruct (N_of_ascii c =? 237)%N; cbn;
      destruct (starts_trail b); reflexivity.
  - cbn [ends_with_lead].
    destruct ((N_of_ascii c =? 237)%N && starts_trail (String c' a));
      reflexivity.
Qed.

Lemma clean_app (a b : string) :
  clean a = true -> clean b = true -> clean (a ++ b) = true.
Proof.
  unfold clean. rewrite has_surrogate_app, ends_with_lead_app.
  intros Ha Hb.
  apply andb_true_iff in Ha as [Ha1 Ha2]. apply andb_true_iff in Hb as [Hb1 Hb2].
  apply negb_true_iff in Ha1, Ha2, Hb1, Hb2.
  rewrite Ha1, Ha2, Hb1. destruct b; [reflexivity | now rewrite Hb2].
Qed.

Lemma all_ascii_app (a b : string) :
  all_ascii a = true -> all_ascii b = true -> all_ascii (a ++ b) = true.
Proof.
  induction a as [|c a IH]; [trivial|]. cbn.
  intros Ha Hb. apply andb_true_iff in Ha as [Hc Ha].
  now rewrite Hc, IH.
Qed.

Lemma all_ascii_clean (s : string) : all_ascii s = true -> clean s = true.
Proof.
  unfold clean. induction s as [|c s IH]; [reflexivity|].
  cbn [all_ascii has_surrogate]. intros H.
  apply andb_true_iff in H as [Hc Hs]. specialize (IH Hs).
  apply andb_true_iff in IH as [IH1 IH2]. apply negb_true_iff in IH1, IH2.
  apply N.ltb_lt in Hc.
  assert (Hne : (N_of_ascii c =? 237)%N = false) by (apply N.eqb_neq; lia).
  rewrite Hne, IH1. cbn.
  destruct s; [now rewrite Hne | exact (proj2 (negb_true_iff _) IH2)].
Qed.

Lemma clean_no_surrogate (s : string) :
  clean s = true -> has_surrogate s = false.
Proof.
  unfold clean. intros H. apply andb_true_iff in H as [H _].
  now apply negb_true_iff in H.
Qed.

Lemma clean_concat (parts : list string) :
  Forall (fun p => clean p = true) parts ->
  clean (String.concat "" parts) = true.
Proof.
  induction 1 as [|p parts Hp Hparts IH]; [reflexivity|].
  cbn [String.concat]. destruct parts as [|p' parts]; [exact Hp|].
  apply clean_app; [exact Hp|]. exact IH.
Qed.

Lemma clean_join (sep : string) (parts : list string) :
  clean sep = true ->
  Forall (fun p => clean p = true) parts ->
  clean (join sep parts) = true.
Proof.
  intros Hsep. induction 1 as [|p parts Hp Hparts IH]; [reflexivity|].
  cbn [join]. destruct parts as [|p' parts]; [exact Hp|].
  apply clean_app; [exact Hp|]. apply clean_app; [exact Hsep | exact IH].
Qed.

(** A text without a surrogate is encoded under every handler. *)
Lemma first_refused_none (handler : error_handler) (s : string) (index : nat) :
  has_surrogate s = false -> first_refused handler s index = None.
Proof.
  revert index. induction s as [|c s IH]; intros index; [reflexivity|].
  cbn [has_surrogate first_refused]. intros H.
  apply orb_false_iff in H as [Hhere Hrest].
  rewrite Hhere. cbn. now apply IH.
Qed.

Lemma encodes_clean (handler : error_handler) (s : string) :
  has_surrogate s = false -> encodes handler s = true.
Proof.
  intros H. unfold encodes. now rewrite first_refused_none.
Qed.

(** Under [strict] the texts that are encoded are those without a
    surrogate. *)
Lemma encodes_strict (s : string) : encodes strict s = negb (has_surrogate s).
Proof.
  unfold encodes. generalize 0.
  induction s as [|c s IH]; intros index; [reflexivity|].
  cbn [has_surrogate first_refused refused]. rewrite andb_true_r.
  destruct ((N_of_ascii c =? 237)%N && starts_trail s); [reflexivity|].
  cbn. apply IH.
Qed.

Lemma first_refused_index (handler : error_handler) (s : string) (i j : nat) :
  first_refused handler s i = None -> first_refused handler s j = None.
Proof.
  revert i j. induction s as [|c s IH]; intros i j; [reflexivity|].
  cbn [first_refused].
  destruct ((N_of_ascii c =? 237)%N && starts_trail s
            && refused handler (surrogate_value (String c s)));
    [discriminate|]. apply IH.
Qed.

(** What stands before a text does not change whether it is encoded, as
    long as it is clean. *)
Lemma first_refused_prefix (handler : error_handler) (a b : string)
    (index : nat) :
  clean a = true ->
  first_refused handler (a ++ b) index =
    first_refused handler b (index + char_count a).
Proof.
  unfold clean. revert index. induction a as [|c a IH]; intros index Ha.
  - cbn. now rewrite Nat.add_0_r.
  - cbn [String.append first_refused char_count].
    apply andb_true_iff in Ha as [Ha1 Ha2]. apply negb_true_iff in Ha1, Ha2.
    cbn [has_surrogate] in Ha1. apply orb_false_iff in Ha1 as [Hhere Hrest].
    assert (Hahead : (N_of_ascii c =? 237)%N && starts_trail (a ++ b) = false).
    { rewrite starts_trail_app. destruct a as [|c' a]; [|exact Hhere].
      cbn in Ha2. now rewrite Ha2. }
    rewrite Hahead. cbn [andb].
    rewrite IH.
    + destruct (is_continuation c); [reflexivity|]. f_equal. lia.
    + rewrite Hrest. cbn [negb andb]. destruct a as [|c' a]; [reflexivity|].
      change (ends_with_lead (String c' a) = false) in Ha2. now rewrite Ha2.
Qed.

Lemma encodes_prefix (handler : error_handler) (a b : string) :
  clean a = true -> encodes handler (a ++ b) = encodes handler b.
Proof.
  intros Ha. unfold encodes. rewrite first_refused_prefix by exact Ha.
  destruct (first_refused handler b (0 + char_count a)) eqn:E1;
    destruct (first_refused handler b 0) eqn:E2; try reflexivity.
  - now rewrite (first_refused_index _ _ _ (0 + char_count a) E2) in E1.
  - now rewrite (first_refused_index _ _ _ 0 E1) in E2.
Qed.

(** A prefix of whole characters of a text without a surrogate has
    none. *)
Lemma take_chars_starts_trail (n : nat) (s : string) :
  starts_trail (take_chars n s) = true -> starts_trail s = true.
Proof.
  destruct s as [|c s]; [trivial|]. cbn [take_chars].
  destruct (is_continuation c); [trivial|]. destruct n; [discriminate | trivial].
Qed.

Lemma take_chars_no_surrogate (n : nat) (s : string) :
  has_surrogate s = false -> has_surrogate (take_chars n s) = false.
Proof.
  revert n. induction s as [|c s IH]; intros n; [trivial|].
  cbn [has_surrogate take_chars]. intros H.
  apply orb_false_iff in H as [Hhere Hrest].
  assert (Hcase : forall k, (N_of_ascii c =? 237)%N
                            && starts_trail (take_chars k s) = false).
  { intros k. destruct (N_of_ascii c =? 237)%N; [|reflexivity]. cbn in *.
    destruct (starts_trail (take_chars k s)) eqn:E; [|reflexivity].
    now rewrite (take_chars_starts_trail k s E) in Hhere. }
  destruct (is_continuation c).
  - cbn [has_surrogate]. now rewrite Hcase, IH.
  - destruct n as [|n]; [reflexivity|].
    cbn [has_surrogate]. now rewrite Hcase, IH.
Qed.

Lemma take_chars_split (n : nat) (s : string) :
  exists rest, s = take_chars n s ++ rest.
Proof.
  revert n. induction s as [|c s IH]; intros n; simpl.
  - now exists "".
  - destruct (is_continuation c).
    + destruct (IH n) as [rest H]. exists rest. simpl. now f_equal.
    + destruct n as [|n]; [now eexists|].
      destruct (IH n) as [rest H]. exists rest. simpl. now f_equal.
Qed.

Lemma take_chars_count (n : nat) (s : string) :
  char_count (take_chars n s) <= n.
Proof.
  revert n. induction s as [|c s IH]; intros n; simpl; [lia|].
  destruct (is_continuation c) eqn:Hc; simpl.
  - rewrite Hc. apply IH.
  - destruct n as [|n]; simpl; [lia|]. rewrite Hc. specialize (IH n). lia.
Qed.

Lemma take_chars_all (n : nat) (s : string) :
  char_count s <= n -> take_chars n s = s.
Proof.
  revert n. induction s as [|c s IH]; intros n; simpl; [reflexivity|].
  destruct (is_continuation c).
  - intros H. now rewrite IH.
  - destruct n as [|n]; [lia|]. intros H. rewrite IH; [reflexivity | lia].
Qed.

(* ================================================================== *)
(** ** Helper lemmas: [repr] yields clean text *)

Ltac Zify.zify_post_hook ::= Z.to_euclidean_division_equations.

Lemma byte_value (n : N) : (n < 256)%N -> N_of_ascii (ascii_of_N n) = n.
Proof. apply N_ascii_embedding. Qed.

Lemma hex_digit_ascii (n : N) : (N_of_ascii (hex_digit n) <? 128)%N = true.
Proof.
  unfold hex_digit. generalize (N.to_nat (n mod 16)). intros i.
  do 16 (destruct i as [|i]; [reflexivity|]). destruct i; reflexivity.
Qed.

Lemma hex_fixed_ascii (width : nat) (n : N) :
  all_ascii (hex_fixed width n) = true.
Proof.
  revert n. induction width as [|k IH]; intros n; [reflexivity|].
  cbn [hex_fixed]. apply all_ascii_app; [apply IH|].
  cbn [all_ascii]. now rewrite hex_digit_ascii.
Qed.

Lemma string_of_uint_ascii (d : Decimal.uint) :
  all_ascii (NilEmpty.string_of_uint d) = true.
Proof. induction d; cbn; trivial. Qed.

Lemma nilzero_uint_ascii (d : Decimal.uint) :
  all_ascii (NilZero.string_of_uint d) = true.
Proof.
  unfold NilZero.string_of_uint.
  destruct d; try reflexivity; apply string_of_uint_ascii.
Qed.

Lemma nat_str_ascii (n : nat) : all_ascii (nat_str n) = true.
Proof. apply nilzero_uint_ascii. Qed.

Lemma int_str_ascii (n : Z) : all_ascii (int_str n) = true.
Proof.
  unfold int_str, NilZero.string_of_int.
  destruct (Z.to_int n); [apply nilzero_uint_ascii|].
  cbn [all_ascii]. now rewrite nilzero_uint_ascii.
Qed.

Lemma float_str_ascii (text : list float_char) :
  all_ascii (float_str text) = true.
Proof.
  unfold float_str. induction text as [|c text IH]; [reflexivity|].
  cbn [map string_of_list_ascii all_ascii]. rewrite IH.
  destruct c; reflexivity.
Qed.

Ltac decide_bytes :=
  repeat match goal with
         | |- context [(?a =? ?b)%N] => destruct (N.eqb_spec a b)
         | |- context [(?a <=? ?b)%N] => destruct (N.leb_spec a b)
         end;
  cbn [andb orb negb]; try reflexivity; lia.

Lemma clean_one_byte (b : N) : (b < 128)%N -> clean (bytes [b]) = true.
Proof.
  intros H. unfold clean, bytes.
  cbn [map string_of_list_ascii has_surrogate ends_with_lead starts_trail].
  rewrite !byte_value by lia. decide_bytes.
Qed.

Lemma clean_two_bytes (b1 b2 : N) :
  (b1 < 237)%N -> (128 <= b2 < 192)%N -> clean (bytes [b1; b2]) = true.
Proof.
  intros H1 H2. unfold clean, bytes.
  cbn [map string_of_list_ascii has_surrogate ends_with_lead starts_trail].
  rewrite !byte_value by lia. decide_bytes.
Qed.

Lemma clean_three_bytes (b1 b2 b3 : N) :
  (b1 < 256)%N -> (128 <= b2 < 192)%N -> (128 <= b3 < 192)%N ->
  (b1 = 237 -> b2 < 160)%N ->
  clean (bytes [b1; b2; b3]) = true.
Proof.
  intros H1 H2 H3 H. unfold clean, bytes.
  cbn [map string_of_list_ascii has_surrogate ends_with_lead starts_trail].
  rewrite !byte_value by lia.
  destruct (N.eqb_spec b1 237) as [E|E]; [specialize (H E)|]; decide_bytes.
Qed.

Lemma clean_four_bytes (b1 b2 b3 b4 : N) :
  (240 <= b1 < 256)%N -> (128 <= b2 < 192)%N -> (128 <= b3 < 192)%N ->
  (128 <= b4 < 192)%N ->
  clean (bytes [b1; b2; b3; b4]) = true.
Proof.
  intros H1 H2 H3 H4. unfold clean, bytes.
  cbn [map string_of_list_ascii has_surrogate ends_with_lead starts_trail].
  rewrite !byte_value by lia. decide_bytes.
Qed.

(** The bytes of a character that is no surrogate are clean. *)
Lemma utf8_clean (cp : N) : is_surrogate cp = false -> clean (utf8 cp) = true.
Proof.
  unfold is_surrogate, utf8. intros Hcp.
  apply andb_false_iff in Hcp.
  rewrite N.leb_gt, N.leb_gt in Hcp.
  destruct (N.ltb_spec cp 128); [now apply clean_one_byte|].
  destruct (N.ltb_spec cp 2048).
  { apply clean_two_bytes; lia. }
  destruct (N.ltb_spec cp 65536).
  { apply clean_three_bytes; lia. }
  apply clean_four_bytes; lia.
Qed.

Lemma ascii_char_clean (c : ascii) (s : string) :
  (N_of_ascii c <? 128)%N = true -> clean s = true ->
  clean (String c s) = true.
Proof.
  intros Hc Hs. change (String c s) with (String c "" ++ s).
  apply clean_app; [|exact Hs]. apply all_ascii_clean. cbn. now rewrite Hc.
Qed.

Lemma repr_char_clean (q : ascii) (cp : N) :
  (N_of_ascii q <? 128)%N = true -> clean (repr_char q cp) = true.
Proof.
  intros Hq. unfold repr_char.
  destruct ((cp =? N_of_ascii q)%N || (cp =? 92)%N) eqn:Hquote.
  { apply all_ascii_clean. cbn [all_ascii]. rewrite andb_true_r.
    apply orb_true_iff in Hquote as [E|E]; apply N.eqb_eq in E; subst cp.
    - now rewrite ascii_N_embedding.
    - reflexivity. }
  destruct (cp =? 9)%N; [reflexivity|].
  destruct (cp =? 10)%N; [reflexivity|].
  destruct (cp =? 13)%N; [reflexivity|].
  assert (Hescape : forall letter width,
            (N_of_ascii letter <? 128)%N = true ->
            clean (String BACKSLASH (String letter "" ++ hex_fixed width cp))
              = true).
  { intros letter width Hletter. apply all_ascii_clean.
    cbn [all_ascii String.append]. rewrite Hletter.
    now rewrite hex_fixed_ascii. }
  destruct ((cp <? 32)%N || (cp =? 127)%N); [now apply (Hescape "x"%char)|].
  destruct (N.ltb_spec cp 127).
  { apply all_ascii_clean. cbn [all_ascii]. rewrite byte_value by lia.
    rewrite andb_true_r. apply N.ltb_lt. lia. }
  destruct (is_printable cp) eqn:Hprintable.
  { apply utf8_clean. unfold is_printable in Hprintable.
    apply andb_true_iff in Hprintable as [Hp _]. now apply negb_true_iff in Hp. }
  destruct (cp <=? 255)%N; [now apply (Hescape "x"%char)|].
  destruct (cp <=? 65535)%N; [now apply (Hescape "u"%char)|].
  now apply (Hescape "U"%char).
Qed.

(** [repr] of a [str] holds no surrogate: it writes them as escapes. *)
Lemma str_repr_clean (s : string) : clean (str_repr s) = true.
Proof.
  unfold str_repr.
  set (q := if has_char SQUOTE s && negb (has_char DQUOTE s)
            then DQUOTE else SQUOTE).
  assert (Hq : (N_of_ascii q <? 128)%N = true).
  { subst q. destruct (has_char SQUOTE s && negb (has_char DQUOTE s));
      reflexivity. }
  apply ascii_char_clean; [exact Hq|].
  apply clean_app.
  - apply clean_concat. apply Forall_forall. intros p Hp.
    apply in_map_iff in Hp as (cp & <- & _). now apply repr_char_clean.
  - apply all_ascii_clean. cbn. now rewrite Hq.
Qed.

(** [repr] of a value holds no surrogate. *)
Lemma py_repr_clean (v : pyval) : clean (py_repr v) = true.
Proof.
  induction v using pyval_induction.
  - reflexivity.
  - destruct b; reflexivity.
  - apply all_ascii_clean, int_str_ascii.
  - apply all_ascii_clean, float_str_ascii.
  - apply str_repr_clean.
  - cbn [py_repr]. apply (ascii_char_clean "["%char); [reflexivity|].
    apply clean_app; [|reflexivity].
    apply clean_join; [reflexivity|].
    apply Forall_forall. intros p Hp.
    apply in_map_iff in Hp as (x & <- & Hx).
    rewrite Forall_forall in H. now apply H.
  - cbn [py_repr]. apply (ascii_char_clean "{"%char); [reflexivity|].
    apply clean_app; [|reflexivity].
    apply clean_join; [reflexivity|].
    apply Forall_forall. intros p Hp.
    apply in_map_iff in Hp as ([k x] & <- & Hx).
    rewrite Forall_forall in H. specialize (H _ Hx). cbn in H.
    apply clean_app; [apply str_repr_clean|].
    apply clean_app; [reflexivity | exact H].
Qed.

(** Everything but a [str] can be printed inside an f-string. *)
Lemma py_str_clean (v : pyval) :
  (forall s, v <> PStr s) -> clean (py_str v) = true.
Proof.
  intros Hv. destruct v; try apply (py_repr_clean _).
  now destruct (Hv s).
Qed.

Lemma encodes_py_str (handler : error_handler) (v : pyval) :
  (forall s, v <> PStr s) -> encodes handler (py_str v) = true.
Proof.
  intros Hv. apply encodes_clean, clean_no_surrogate, py_str_clean, Hv.
Qed.

(** What the encoder raises can itself be printed. *)
Lemma UnicodeEncodeError_printable (start stop : nat) (cp : N) :
  exc_printable (UnicodeEncodeError start stop cp) = true.
Proof.
  unfold exc_printable, UnicodeEncodeError. cbn [exc_str exc_class].
  apply andb_true_iff. split; [|reflexivity].
  apply negb_true_iff, clean_no_surrogate, all_ascii_clean.
  destruct (Nat.eqb stop (S start)).
  - apply (all_ascii_app "'utf-8' codec can't encode character '\u");
      [reflexivity|].
    apply all_ascii_app; [apply hex_fixed_ascii|].
    apply (all_ascii_app "' in position "); [reflexivity|].
    apply all_ascii_app; [apply nat_str_ascii | reflexivity].
  - apply (all_ascii_app "'utf-8' codec can't encode characters in position ");
      [reflexivity|].
    apply all_ascii_app; [apply nat_str_ascii|].
    apply (all_ascii_app "-"); [reflexivity|].
    apply all_ascii_app; [apply nat_str_ascii | reflexivity].
Qed.

(* ================================================================== *)
(** ** Texts checked against CPython 3.11 *)

Example repr_escapes :
  str_repr (bytes [97; 194; 160; 98; 226; 128; 141; 237; 160; 128;
                   243; 160; 128; 129; 226; 130; 185; 39]%N) =
    bytes [34; 97; 92; 120; 97; 48; 98; 92; 117; 50; 48; 48; 100;
           92; 117; 100; 56; 48; 48; 92; 85; 48; 48; 48; 101; 48; 48; 48; 49;
           226; 130; 185; 39; 34]%N.
Proof. vm_compute. reflexivity. Qed.

Example codec_error_text :
  exc_str (UnicodeEncodeError 16 17 55296) =
    "'utf-8' codec can't encode character '\ud800' in position 16: surrogates not allowed".
Proof. vm_compute. reflexivity. Qed.

Example codec_error_text_run :
  exc_str (UnicodeEncodeError 0 2 55296) =
    "'utf-8' codec can't encode characters in position 0-1: surrogates not allowed".
Proof. vm_compute. reflexivity. Qed.

Example escaped_byte_passes :
  encodes surrogateescape ("x" ++ escaped_byte) = true /\
  encodes strict ("x" ++ escaped_byte) = false /\
  encodes surrogateescape ("x" ++ high_surrogate) = false.
Proof. vm_compute. repeat split. Qed.

(** A key read from the environment holds a lone surrogate for every
    byte that is no UTF-8; under [strict] the banner cannot be printed. *)
Example banner_with_undecodable_key :
  main (mk_app_config ("AIza" ++ escaped_byte) "gemini-2.0-flash-exp")
    empty_world =
    (Raise (UnicodeEncodeError 21 22 56448),
     mk_world strict ["🚀 RampageAI Chatbot API starting on port 5001..."] []).
Proof. vm_compute. reflexivity. Qed.

Example surrogate_message_is_500 :
  chat (post_chat (PDict [("message", PStr high_surrogate)])) sample_model
    empty_world =
    (Ok (server_error
           "'utf-8' codec can't encode character '\ud800' in position 16: surrogates not allowed"),
     mk_world strict
       ["📩 Received chat request";
        "📦 Request data: {'message': '\ud800'}";
        "❌ ERROR: 'utf-8' codec can't encode character '\ud800' in position 16: surrogates not allowed";
        "❌ ERROR TYPE: <class 'UnicodeEncodeError'>"]
       []).
Proof. vm_compute. reflexivity. Qed.

(* ================================================================== *)
(** ** Helper lemmas: the views *)

Lemma first_refused_line (handler : error_handler) (prefix text : string) :
  clean prefix = true ->
  encodes handler text = true ->
  first_refused handler (prefix ++ text) 0 = None.
Proof.
  intros Hprefix Htext. rewrite first_refused_prefix by exact Hprefix.
  unfold encodes in Htext.
  destruct (first_refused handler text 0) eqn:E; [discriminate|].
  exact (first_refused_index _ _ _ _ E).
Qed.

Lemma first_refused_failing_line (handler : error_handler)
    (prefix text : string) :
  clean prefix = true ->
  encodes handler text = false ->
  exists start stop cp,
    first_refused handler (prefix ++ text) 0 = Some (start, stop, cp).
Proof.
  intros Hprefix Htext.
  destruct (first_refused handler (prefix ++ text) 0) as [[[a b] c]|] eqn:E;
    [now exists a, b, c|].
  rewrite first_refused_prefix in E by exact Hprefix.
  unfold encodes in Htext.
  now rewrite (first_refused_index _ _ _ 0 E) in Htext.
Qed.

Lemma no_surrogate_prefixed (prefix s : string) :
  clean prefix = true ->
  has_surrogate s = false ->
  has_surrogate (prefix ++ s) = false.
Proof.
  intros Hprefix Hs. unfold clean in Hprefix.
  apply andb_true_iff in Hprefix as [Hp1 Hp2]. apply negb_true_iff in Hp1, Hp2.
  now rewrite has_surrogate_app, Hp1, Hp2, Hs.
Qed.

Lemma no_surrogate_wrapped (prefix s suffix : string) :
  clean prefix = true ->
  has_surrogate s = false ->
  all_ascii suffix = true ->
  has_surrogate (prefix ++ s ++ suffix) = false.
Proof.
  intros Hprefix Hs Hsuffix.
  pose proof (all_ascii_clean _ Hsuffix) as Hclean.
  unfold clean in Hprefix, Hclean.
  apply andb_true_iff in Hprefix as [Hp1 Hp2].
  apply andb_true_iff in Hclean as [Hc1 _].
  apply negb_true_iff in Hp1, Hp2, Hc1.
  rewrite !has_surrogate_app, Hp1, Hp2, Hs, Hc1.
  destruct suffix as [|c suffix]; [now rewrite !andb_false_r|].
  cbn [all_ascii] in Hsuffix. apply andb_true_iff in Hsuffix as [Hc _].
  apply N.ltb_lt in Hc. cbn [starts_trail].
  destruct (N.leb_spec 160 (N_of_ascii c)); [lia|].
  now rewrite !andb_false_r.
Qed.

Ltac run :=
  cbn -[SYSTEM_PROMPT String.append py_str build_context_info truthy
        py_in py_getitem py_get first_refused encodes has_surrogate
        UnicodeEncodeError].

Ltac enter_chat :=
  unfold chat, try_except_Exception, chat_try, chat_except, bind, lift,
    print, ret, generate_content; run.

(** Resolve the outermost [print]: a fixed line, or a fixed label before
    a text known to be encoded. *)
Ltac print_passes :=
  first
    [ rewrite (first_refused_none _ _ 0) by reflexivity
    | rewrite first_refused_line
        by first [ reflexivity | assumption
                 | solve [apply encodes_py_str; intros ? [=]] ] ];
  run.

(** The [except] suite calls no provider; it answers 500 with [str(e)],
    unless one of its two [print]s raises. *)
Lemma chat_except_facts (e : pyexc) (w : world) :
  provider_calls (snd (chat_except e w)) = provider_calls w /\
  fst (chat_except e w) = except_reply (stdout_errors w) e /\
  (fst (chat_except e w) = Ok (server_error (exc_str e)) \/
   exists start stop cp,
     fst (chat_except e w) = Raise (UnicodeEncodeError start stop cp)).
Proof.
  unfold except_reply, chat_except, bind, print, ret. run.
  destruct (first_refused (stdout_errors w) _ 0) as [[[a b] c]|]; run.
  { repeat split; try reflexivity. right. now exists a, b, c. }
  destruct (first_refused (stdout_errors w) _ 0) as [[[a b] c]|]; run.
  { repeat split; try reflexivity. right. now exists a, b, c. }
  repeat split; try reflexivity. now left.
Qed.

Lemma chat_except_printable (e : pyexc) (w : world) :
  exc_printable e = true ->
  fst (chat_except e w) = Ok (server_error (exc_str e)) /\
  stdout (snd (chat_except e w)) =
    (stdout w ++ [String.append "❌ ERROR: " (exc_str e);
                  String.append "❌ ERROR TYPE: <class '"
                    (String.append (exc_class e) "'>")])%list.
Proof.
  unfold exc_printable. intros H.
  apply andb_true_iff in H as [Hstr Hclass]. apply negb_true_iff in Hstr, Hclass.
  unfold chat_except, bind, print, ret. run.
  rewrite (first_refused_none _ ("❌ ERROR: " ++ exc_str e) 0)
    by (now apply no_surrogate_prefixed).
  run.
  rewrite (first_refused_none _ ("❌ ERROR TYPE: <class '" ++ exc_class e ++ "'>") 0)
    by (now apply no_surrogate_wrapped).
  run. split; [reflexivity|]. now rewrite <- app_assoc.
Qed.

Ltac enter_try :=
  unfold chat_try, bind, lift, print, ret, generate_content; run.

Section ChatPaths.

Variables (req : request) (model : provider) (w : world).

(** Once the [try:] suite has raised, the response is decided by the
    exception and the handler of standard output alone. *)
Lemma chat_after_raise (e : pyexc) (w' : world) :
  chat_try req model w = (Raise e, w') ->
  stdout_errors w' = stdout_errors w ->
  fst (chat req model w) = outcome_after (stdout_errors w) e /\
  provider_calls (snd (chat req model w)) = provider_calls w'.
Proof.
  intros Htry Hhandler. unfold chat, try_except_Exception, outcome_after.
  rewrite Htry. destruct (exc_root_of e); [|split; reflexivity].
  destruct (chat_except_facts e w') as (Hcalls & Hreply & _).
  rewrite Hreply, Hhandler. now split.
Qed.

(** A body that [get_json] refuses to parse never reaches the
    validation. *)
Lemma chat_unparsed_body (e : pyexc) :
  get_json req = Raise e ->
  fst (chat req model w) = outcome_after (stdout_errors w) e /\
  provider_calls (snd (chat req model w)) = provider_calls w.
Proof.
  intros Hjson.
  apply (chat_after_raise e (printed w "📩 Received chat request"));
    [|reflexivity].
  enter_try. print_passes. now rewrite Hjson.
Qed.

(** A body that standard output cannot encode is answered by the
    [except] suite before the validation. *)
Lemma chat_unprintable_body (data : pyval) (start stop : nat) (cp : N) :
  get_json req = Ok data ->
  first_refused (stdout_errors w) ("📦 Request data: " ++ py_str data) 0 =
    Some (start, stop, cp) ->
  fst (chat req model w) =
    Ok (server_error (exc_str (UnicodeEncodeError start stop cp))) /\
  provider_calls (snd (chat req model w)) = provider_calls w.
Proof.
  intros Hjson E.
  destruct (chat_after_raise (UnicodeEncodeError start stop cp)
              (printed w "📩 Received chat request")) as [Hreply Hcalls];
    [|reflexivity|].
  - enter_try. print_passes. rewrite Hjson. run. now rewrite E.
  - split; [|exact Hcalls]. rewrite Hreply. unfold outcome_after.
    cbn [exc_root_of UnicodeEncodeError]. unfold except_reply.
    exact (proj1 (chat_except_printable _ _
                    (UnicodeEncodeError_printable start stop cp))).
Qed.

(** A body that lacks [message] is turned away before anything else is
    done: the provider is not called. *)
Lemma chat_rejects (data : pyval) :
  get_json req = Ok data ->
  encodes (stdout_errors w) (py_str data) = true ->
  truthy data = false \/ py_in "message" data = Ok false ->
  fst (chat req model w) = Ok message_required /\
  provider_calls (snd (chat req model w)) = provider_calls w.
Proof.
  intros Hjson Hdata Hlacks.
  unfold chat, try_except_Exception. enter_try. print_passes.
  rewrite Hjson. run. print_passes.
  destruct Hlacks as [Hfalsy | Hin].
  - rewrite Hfalsy. split; reflexivity.
  - destruct (truthy data); run; [|split; reflexivity].
    rewrite Hin. split; reflexivity.
Qed.

(** A truthy body on which [in] or the subscript raises. *)
Lemma chat_raises_early (data : pyval) (e : pyexc) :
  get_json req = Ok data ->
  encodes (stdout_errors w) (py_str data) = true ->
  truthy data = true ->
  py_in "message" data = Raise e \/
  (py_in "message" data = Ok true /\ py_getitem data "message" = Raise e) ->
  fst (chat req model w) = outcome_after (stdout_errors w) e /\
  provider_calls (snd (chat req model w)) = provider_calls w.
Proof.
  intros Hjson Hdata Htruthy Hraise.
  apply (chat_after_raise e
           (printed (printed w "📩 Received chat request")
              ("📦 Request data: " ++ py_str data))); [|reflexivity].
  enter_try. print_passes. rewrite Hjson. run. print_passes.
  rewrite Htruthy. run.
  destruct Hraise as [Hin | [Hin Hget]]; rewrite Hin; run; [reflexivity|].
  now rewrite Hget.
Qed.

Variables (entries : list (string * pyval)) (m : pyval).
Hypothesis Hjson : get_json req = Ok (PDict entries).
Hypothesis Hmsg : dict_lookup "message" entries = Some m.

Lemma entries_truthy : truthy (PDict entries) = true.
Proof.
  clear Hjson. destruct entries; [discriminate Hmsg | reflexivity].
Qed.

(** The steps of the [try:] suite up to the [print] of the message. *)
Ltac into_object :=
  enter_try; print_passes; rewrite Hjson; run; print_passes;
  rewrite entries_truthy; run;
  unfold py_in, py_getitem, py_get; rewrite Hmsg; run;
  fold (context_of entries).

(** A message that standard output cannot encode. *)
Lemma chat_unprintable_message (start stop : nat) (cp : N) :
  first_refused (stdout_errors w) ("💬 User message: " ++ py_str m) 0 =
    Some (start, stop, cp) ->
  fst (chat req model w) =
    Ok (server_error (exc_str (UnicodeEncodeError start stop cp))) /\
  provider_calls (snd (chat req model w)) = provider_calls w.
Proof.
  intros E.
  destruct (chat_after_raise (UnicodeEncodeError start stop cp)
              (printed (printed w "📩 Received chat request")
                 ("📦 Request data: " ++ py_str (PDict entries))))
    as [Hreply Hcalls]; [|reflexivity|].
  - into_object. now rewrite E.
  - split; [|exact Hcalls]. rewrite Hreply. unfold outcome_after.
    cbn [exc_root_of UnicodeEncodeError]. unfold except_reply.
    exact (proj1 (chat_except_printable _ _
                    (UnicodeEncodeError_printable start stop cp))).
Qed.

Hypothesis Hprintable : encodes (stdout_errors w) (py_str m) = true.

(** A context that standard output cannot encode. *)
Lemma chat_unprintable_context (start stop : nat) (cp : N) :
  first_refused (stdout_errors w) ("🔍 Context: " ++ py_str (context_of entries)) 0 =
    Some (start, stop, cp) ->
  fst (chat req model w) =
    Ok (server_error (exc_str (UnicodeEncodeError start stop cp))) /\
  provider_calls (snd (chat req model w)) = provider_calls w.
Proof.
  intros E.
  destruct (chat_after_raise (UnicodeEncodeError start stop cp)
              (printed (printed (printed w "📩 Received chat request")
                          ("📦 Request data: " ++ py_str (PDict entries)))
                 ("💬 User message: " ++ py_str m)))
    as [Hreply Hcalls]; [|reflexivity|].
  - into_object. print_passes. now rewrite E.
  - split; [|exact Hcalls]. rewrite Hreply. unfold outcome_after.
    cbn [exc_root_of UnicodeEncodeError]. unfold except_reply.
    exact (proj1 (chat_except_printable _ _
                    (UnicodeEncodeError_printable start stop cp))).
Qed.

Hypothesis Hcontext :
  encodes (stdout_errors w) (py_str (context_of entries)) = true.

(** The context lines raise: the provider is not called. *)
Lemma chat_context_raises (e : pyexc) :
  build_context_info (context_of entries) = Raise e ->
  fst (chat req model w) = outcome_after (stdout_errors w) e /\
  provider_calls (snd (chat req model w)) = provider_calls w.
Proof.
  intros Hctx.
  apply (chat_after_raise e
           (printed (printed (printed (printed w "📩 Received chat request")
                       ("📦 Request data: " ++ py_str (PDict entries)))
                       ("💬 User message: " ++ py_str m))
              ("🔍 Context: " ++ py_str (context_of entries))));
    [|reflexivity].
  into_object. print_passes. print_passes. now rewrite Hctx.
Qed.

(** A body with key [message] whose texts can be printed and whose
    context lines assemble reaches the provider with one prompt. *)
Lemma chat_calls (context_info : string) :
  build_context_info (context_of entries) = Ok context_info ->
  provider_calls (snd (chat req model w)) =
    calls_with w
      (SYSTEM_PROMPT ++ context_info ++ nl ++ nl ++ "User: " ++ py_str m).
Proof.
  intros Hctx. unfold calls_with, chat, try_except_Exception.
  into_object. print_passes. print_passes. rewrite Hctx. run. print_passes.
  destruct (model _ _) as [r|e]; run.
  - print_passes. destruct (text r) as [t|e]; run; [reflexivity|].
    destruct (exc_root_of e); [|reflexivity].
    now rewrite (proj1 (chat_except_facts e _)).
  - destruct (exc_root_of e); [|reflexivity].
    now rewrite (proj1 (chat_except_facts e _)).
Qed.

Lemma chat_response (context_info : string) :
  build_context_info (context_of entries) = Ok context_info ->
  fst (chat req model w) =
    reply_to_prompt (stdout_errors w) model
      (SYSTEM_PROMPT ++ context_info ++ nl ++ nl ++ "User: " ++ py_str m).
Proof.
  intros Hctx. unfold reply_to_prompt, outcome_after, chat, try_except_Exception.
  into_object. print_passes. print_passes. rewrite Hctx. run. print_passes.
  destruct (model _ _) as [r|e]; run.
  - print_passes. destruct (text r) as [t|e]; run; [reflexivity|].
    destruct (exc_root_of e); [|reflexivity].
    now rewrite (proj1 (proj2 (chat_except_facts e _))).
  - destruct (exc_root_of e); [|reflexivity].
    now rewrite (proj1 (proj2 (chat_except_facts e _))).
Qed.

End ChatPaths.

(* ================================================================== *)
(** ** Helper lemmas: the context lines *)

Lemma build_context_info_falsy (c : pyval) :
  truthy c = false -> build_context_info c = Ok "".
Proof.
  intros H. unfold build_context_info. now rewrite H.
Qed.

Lemma add_context_line_dict (key label : string)
    (context : list (string * pyval)) (context_info : string) :
  add_context_line key label (PDict context) context_info =
    Ok (context_info ++ label_line label (dict_lookup key context)).
Proof.
  unfold add_context_line, py_in, py_getitem, label_line.
  destruct (dict_lookup key context); [reflexivity|].
  now rewrite append_empty_r.
Qed.

(** On an object the block under [# Build context-aware prompt] never
    raises and yields the label lines of the specification. *)
Lemma build_context_info_dict (context : list (string * pyval)) :
  build_context_info (PDict context) = Ok (context_lines context).
Proof.
  unfold build_context_info.
  destruct (truthy (PDict context)) eqn:Htruthy.
  - rewrite !add_context_line_dict. unfold result_bind.
    rewrite !add_context_line_dict.
    unfold context_lines, context_fields.
    cbn -[String.append label_line dict_lookup nl].
    rewrite !append_assoc. reflexivity.
  - destruct context; [reflexivity | discriminate Htruthy].
Qed.

Lemma dict_lookup_filter (keep : string -> bool) (key : string)
    (context : list (string * pyval)) :
  keep key = true ->
  dict_lookup key (filter (fun entry => keep (fst entry)) context) =
    dict_lookup key context.
Proof.
  intros Hkeep. induction context as [|[k x] rest IH]; [reflexivity|].
  cbn [filter fst dict_lookup].
  destruct (String.eqb_spec key k) as [->|Hneq].
  - rewrite Hkeep. cbn [dict_lookup]. now rewrite String.eqb_refl.
  - destruct (keep k); cbn [dict_lookup]; [|exact IH].
    destruct (String.eqb_spec key k); [contradiction | exact IH].
Qed.

Lemma context_lines_drop_unrecognized (context : list (string * pyval)) :
  context_lines (drop_unrecognized context) = context_lines context.
Proof.
  unfold context_lines, drop_unrecognized, context_fields.
  cbn [map fst snd].
  now rewrite !dict_lookup_filter by reflexivity.
Qed.


Lemma build_context_info_scalar (c : pyval) :
  is_scalar c = true ->
  truthy c = true ->
  build_context_info c =
    Raise (TypeError ("argument of type '" ++ type_name c
                        ++ "' is not iterable")).
Proof.
  intros Hscalar Htruthy. unfold build_context_info. rewrite Htruthy.
  destruct c; try discriminate Hscalar; reflexivity.
Qed.

Lemma add_context_line_absent (key label : string) (c : pyval)
    (context_info : string) :
  py_in key c = Ok false ->
  add_context_line key label c context_info = Ok context_info.
Proof.
  intros H. unfold add_context_line. now rewrite H.
Qed.

Lemma build_context_info_no_field (c : pyval) :
  (forall key, In key (map fst context_fields) -> py_in key c = Ok false) ->
  build_context_info c = Ok "".
Proof.
  intros Hnone. unfold build_context_info.
  destruct (truthy c); [|reflexivity].
  rewrite (add_context_line_absent "transactions") by (apply Hnone; simpl; tauto).
  unfold result_bind.
  rewrite (add_context_line_absent "balance") by (apply Hnone; simpl; tauto).
  rewrite (add_context_line_absent "monthly_expenses")
    by (apply Hnone; simpl; tauto).
  apply add_context_line_absent. apply Hnone. simpl. tauto.
Qed.

(** On a [str] or a [list] the first recognized key that is found makes
    the subscript raise. *)
Lemma build_context_info_bad_index (c : pyval) (key : string) :
  (exists s, c = PStr s) \/ (exists items, c = PList items) ->
  In key (map fst context_fields) ->
  py_in key c = Ok true ->
  build_context_info c = Raise (TypeError (bad_index_message c)).
Proof.
  intros Hshape Hkey Hfound.
  assert (Htruthy : truthy c = true).
  { destruct Hshape as [[s ->] | [items ->]].
    - destruct s; [|reflexivity].
      simpl in Hkey. cbn in Hfound.
      destruct Hkey as [<- | [<- | [<- | [<- | []]]]]; discriminate Hfound.
    - destruct items; [|reflexivity]. discriminate Hfound. }
  assert (Hline : forall k label info,
            add_context_line k label c info =
              match py_in k c with
              | Ok true => Raise (TypeError (bad_index_message c))
              | Ok false => Ok info
              | Raise e => Raise e
              end).
  { intros k label info. unfold add_context_line.
    destruct Hshape as [[s ->] | [items ->]]; cbn;
      match goal with |- context [if ?b then _ else _] => destruct b end;
      reflexivity. }
  assert (Hbool : forall k, exists b, py_in k c = Ok b).
  { intros k. destruct Hshape as [[s ->] | [items ->]]; eexists; reflexivity. }
  unfold build_context_info. rewrite Htruthy. unfold result_bind.
  rewrite !Hline.
  destruct (Hbool "transactions") as [b1 H1].
  destruct (Hbool "balance") as [b2 H2].
  destruct (Hbool "monthly_expenses") as [b3 H3].
  destruct (Hbool "monthly_income") as [b4 H4].
  rewrite H1. destruct b1; [reflexivity|]. rewrite Hline.
  rewrite H2. destruct b2; [reflexivity|]. rewrite Hline.
  rewrite H3. destruct b3; [reflexivity|]. rewrite Hline.
  rewrite H4. destruct b4; [reflexivity|].
  exfalso. simpl in Hkey.
  destruct Hkey as [<- | [<- | [<- | [<- | []]]]]; congruence.
Qed.

Lemma startup_key_nonempty (env : option string) (config : app_config) :
  startup env = Ok config -> env = Some (API_KEY config) /\ API_KEY config <> "".
Proof.
  unfold startup. destruct env as [key|]; [|discriminate].
  destruct key as [|c key]; [discriminate|].
  intros [= <-]. split; [reflexivity | discriminate].
Qed.

Example context_info_sample :
  build_context_info
    (PDict [("monthly_income", PInt 4000); ("plan", PStr "gold");
            ("balance", PInt 2500)]) =
    Ok (nl ++ nl ++ "Current balance: ₹2500" ++ nl ++ "Monthly income: ₹4000").
Proof. reflexivity. Qed.

Example transactions_sample :
  build_context_info
    (PDict [("transactions",
             PList [PDict [("item", PStr "rent"); ("amount", PInt (-1200))]])]) =
    Ok (nl ++ nl ++ "User's recent transactions:" ++ nl
           ++ "[{'item': 'rent', 'amount': -1200}]").
Proof. reflexivity. Qed.

(* ================================================================== *)
(** ** Helper lemmas: what a view depends on *)

Lemma steady_ret {A : Type} (a : A) : steady (ret a).
Proof. split; reflexivity. Qed.

Lemma steady_lift {A : Type} (r : result A) : steady (lift r).
Proof. split; reflexivity. Qed.

Lemma steady_print (line : string) : steady (print line).
Proof.
  unfold steady, print. split.
  - intros w. destruct (first_refused _ _ _) as [[[a b] c]|]; reflexivity.
  - intros w1 w2 ->.
    destruct (first_refused _ _ _) as [[[a b] c]|]; reflexivity.
Qed.

Lemma steady_generate_content (model : provider) (prompt : string)
    (config : GenerationConfig) :
  steady (generate_content model prompt config).
Proof. split; reflexivity. Qed.

Lemma steady_bind {A B : Type} (m : M A) (k : A -> M B) :
  steady m -> (forall a, steady (k a)) -> steady (bind m k).
Proof.
  intros [Hm1 Hm2] Hk. unfold bind. split.
  - intros w. specialize (Hm1 w). destruct (m w) as [[a|e] w']; cbn in *.
    + now rewrite (proj1 (Hk a) w').
    + exact Hm1.
  - intros w1 w2 H. pose proof (Hm2 w1 w2 H) as Hfst.
    pose proof (Hm1 w1) as H1. pose proof (Hm1 w2) as H2.
    destruct (m w1) as [[a1|e1] w1'], (m w2) as [[a2|e2] w2'];
      cbn in *; try discriminate.
    + injection Hfst as ->. apply (proj2 (Hk a2)). congruence.
    + now injection Hfst as ->.
Qed.

Lemma steady_try_except {A : Type} (body : M A) (handler : pyexc -> M A) :
  steady body -> (forall e, steady (handler e)) ->
  steady (try_except_Exception body handler).
Proof.
  intros [Hb1 Hb2] Hh. unfold try_except_Exception. split.
  - intros w. specialize (Hb1 w). destruct (body w) as [[a|e] w']; cbn in *.
    + exact Hb1.
    + destruct (exc_root_of e); [|exact Hb1].
      now rewrite (proj1 (Hh e) w').
  - intros w1 w2 H. pose proof (Hb2 w1 w2 H) as Hfst.
    pose proof (Hb1 w1) as H1. pose proof (Hb1 w2) as H2.
    destruct (body w1) as [[a1|e1] w1'], (body w2) as [[a2|e2] w2'];
      cbn in *; try discriminate.
    + exact Hfst.
    + injection Hfst as ->. destruct (exc_root_of e2); [|reflexivity].
      apply (proj2 (Hh e2)). congruence.
Qed.

Ltac steady_steps :=
  repeat first
    [ apply steady_ret | apply steady_lift | apply steady_print
    | apply steady_generate_content
    | apply steady_bind; [|intros ?]
    | match goal with
      | |- steady (if ?b then _ else _) => destruct b
      end ].

Lemma steady_chat (req : request) (model : provider) : steady (chat req model).
Proof.
  unfold chat. apply steady_try_except.
  - unfold chat_try. steady_steps.
  - intros e. unfold chat_except. steady_steps.
Qed.

(** The response does not depend on what earlier requests left in the
    world. *)
Lemma chat_response_any_world (req : request) (model : provider)
    (w1 w2 : world) :
  stdout_errors w1 = stdout_errors w2 ->
  fst (chat req model w1) = fst (chat req model w2).
Proof. apply (proj2 (steady_chat req model)). Qed.

Lemma chat_keeps_handler (req : request) (model : provider) (w : world) :
  stdout_errors (snd (chat req model w)) = stdout_errors w.
Proof. apply (proj1 (steady_chat req model)). Qed.

(* ================================================================== *)
(** ** Helper lemmas: what can be printed *)

Lemma falsy_printable (handler : error_handler) (v : pyval) :
  truthy v = false -> encodes handler (py_str v) = true.
Proof.
  intros Hv. destruct v; try solve [apply encodes_py_str; intros ? [=]].
  cbn in Hv. apply negb_false_iff, String.eqb_eq in Hv. now subst.
Qed.

Lemma not_iterable_printable (v : pyval) :
  exc_printable
    (TypeError ("argument of type '" ++ type_name v ++ "' is not iterable")) =
    true.
Proof. destruct v; reflexivity. Qed.

Lemma bad_index_printable (v : pyval) :
  exc_printable (TypeError (bad_index_message v)) = true.
Proof. destruct v; reflexivity. Qed.

Lemma outcome_after_printable (handler : error_handler) (e : pyexc) :
  exc_root_of e = FromException ->
  exc_printable e = true ->
  outcome_after handler e = Ok (server_error (exc_str e)).
Proof.
  intros Hroot Hprintable. unfold outcome_after, except_reply.
  rewrite Hroot. exact (proj1 (chat_except_printable _ _ Hprintable)).
Qed.

(** Whatever leaves the [try:] suite, the view answers 500 with its text
    or raises. *)
Lemma outcome_after_reply (handler : error_handler) (e : pyexc)
    (r : response) :
  outcome_after handler e = Ok r -> r = server_error (exc_str e).
Proof.
  unfold outcome_after, except_reply.
  destruct (exc_root_of e); [|discriminate].
  destruct (chat_except_facts e (mk_world handler [] []))
    as (_ & _ & [H | (a & b & c & H)]); rewrite H; [|discriminate].
  now intros [= <-].
Qed.

Lemma outcome_after_raise (handler : error_handler) (e e' : pyexc) :
  outcome_after handler e = Raise e' ->
  exc_root_of e' = FromBaseExceptionOnly \/
  exc_class e' = "UnicodeEncodeError".
Proof.
  unfold outcome_after, except_reply.
  destruct (exc_root_of e) eqn:Hroot; [|intros [= <-]; now left].
  destruct (chat_except_facts e (mk_world handler [] []))
    as (_ & _ & [H | (a & b & c & H)]); rewrite H; [discriminate|].
  intros [= <-]. now right.
Qed.

Lemma reply_to_prompt_status (handler : error_handler) (model : provider)
    (prompt : string) (r : response) :
  reply_to_prompt handler model prompt = Ok r -> status r <> 400%Z.
Proof.
  unfold reply_to_prompt.
  destruct (model prompt generation_config) as [generated|e].
  - destruct (text generated) as [t|e].
    + intros [= <-]. discriminate.
    + intros H. rewrite (outcome_after_reply _ _ _ H). discriminate.
  - intros H. rewrite (outcome_after_reply _ _ _ H). discriminate.
Qed.

(** The error text of the [except] suite is printed before the response
    is made: an exception whose text standard output cannot encode
    leaves the view as a [UnicodeEncodeError]. *)
Example unprintable_failure_propagates :
  fst (chat sample_chat_request
         (failing_model (mk_exc FromException "RuntimeError" high_surrogate))
         empty_world) =
    Raise (UnicodeEncodeError 9 10 55296).
Proof. vm_compute. reflexivity. Qed.

(** A context that is no object but holds a recognized key as substring
    or element makes the subscript raise. *)
Example string_context_raises :
  fst (chat (post_chat (PDict [("message", PStr "hi");
                               ("context", PStr "balance")]))
            sample_model empty_world) =
    Ok (server_error "string indices must be integers, not 'str'").
Proof. vm_compute. reflexivity. Qed.

Section AcceptedObjects.

Variables (req : request) (model : provider) (w : world).
Variables (entries : list (string * pyval)) (m : pyval).
Hypothesis Hjson : get_json req = Ok (PDict entries).
Hypothesis Hmsg : dict_lookup "message" entries = Some m.
Variable context_info : string.
Hypothesis Hcontext :
  encodes (stdout_errors w) (py_str (context_of entries)) = true.
Hypothesis Hinfo :
  build_context_info (context_of entries) = Ok context_info.

(** The calls an object body with key [message] leads to, when its
    context can be printed and its context lines assemble: one call if
    the message can be printed, none otherwise. *)
Lemma chat_calls_if :
  provider_calls (snd (chat req model w)) =
    if stdout_accepts w m
    then calls_with w
           (SYSTEM_PROMPT ++ context_info ++ nl ++ nl ++ "User: " ++ py_str m)
    else provider_calls w.
Proof.
  unfold stdout_accepts.
  destruct (encodes (stdout_errors w) (py_str m)) eqn:Hm.
  - exact (chat_calls req model w entries m Hjson Hmsg Hm Hcontext _ Hinfo).
  - destruct (first_refused_failing_line (stdout_errors w)
                "💬 User message: " (py_str m) eq_refl Hm) as (a & b & c & E).
    exact (proj2 (chat_unprintable_message req model w entries m Hjson Hmsg
                    a b c E)).
Qed.

End AcceptedObjects.

(** Two object bodies with the same message text and the same context
    text are served alike. *)
Lemma chat_same_texts (req req' : request) (model : provider) (w : world)
    (entries entries' : list (string * pyval)) (m m' : pyval)
    (context_info : string) :
  get_json req = Ok (PDict entries) ->
  get_json req' = Ok (PDict entries') ->
  dict_lookup "message" entries = Some m ->
  dict_lookup "message" entries' = Some m' ->
  py_str m = py_str m' ->
  encodes (stdout_errors w) (py_str (context_of entries)) = true ->
  encodes (stdout_errors w) (py_str (context_of entries')) = true ->
  build_context_info (context_of entries) = Ok context_info ->
  build_context_info (context_of entries') = Ok context_info ->
  provider_calls (snd (chat req model w)) =
    provider_calls (snd (chat req' model w)) /\
  fst (chat req model w) = fst (chat req' model w).
Proof.
  intros Hjson Hjson' Hmsg Hmsg' Htext Hc Hc' Hinfo Hinfo'.
  destruct (encodes (stdout_errors w) (py_str m)) eqn:Hm.
  - assert (Hm' : encodes (stdout_errors w) (py_str m') = true)
      by now rewrite <- Htext.
    rewrite (chat_calls req model w entries m Hjson Hmsg Hm Hc _ Hinfo).
    rewrite (chat_calls req' model w entries' m' Hjson' Hmsg' Hm' Hc' _ Hinfo').
    rewrite (chat_response req model w entries m Hjson Hmsg Hm Hc _ Hinfo).
    rewrite (chat_response req' model w entries' m' Hjson' Hmsg' Hm' Hc' _ Hinfo').
    rewrite Htext. split; reflexivity.
  - destruct (first_refused_failing_line (stdout_errors w)
                "💬 User message: " (py_str m) eq_refl Hm) as (a & b & c & E).
    destruct (chat_unprintable_message req model w entries m Hjson Hmsg
                a b c E) as [H1 H2].
    rewrite Htext in E.
    destruct (chat_unprintable_message req' model w entries' m' Hjson' Hmsg'
                a b c E) as [H1' H2'].
    split; congruence.
Qed.

Lemma dict_context_printable (handler : error_handler)
    (entries context : list (string * pyval)) :
  dict_lookup "context" entries = Some (PDict context) ->
  encodes handler (py_str (context_of entries)) = true.
Proof.
  intros H. unfold context_of. rewrite H.
  apply encodes_py_str. intros s [=].
Qed.

Lemma dict_context_lines (entries context : list (string * pyval)) :
  dict_lookup "context" entries = Some (PDict context) ->
  build_context_info (context_of entries) = Ok (context_lines context).
Proof.
  intros H. unfold context_of. rewrite H. apply build_context_info_dict.
Qed.

(* ================================================================== *)
(** ** The claims *)

(** C1.  When the body is an object with key [message] and without key
    [context], the prompt handed to the provider is [SYSTEM_PROMPT], two
    newlines, ["User: "] and the text of the message, and nothing else;
    for a [str] message that text is the message itself.  The prompt is
    handed whenever the [print] of the message goes through; when
    standard output cannot encode the message the view fails before it
    calls the provider. *)
Theorem C1_prompt_without_context (req : request) (model : provider)
    (w : world) (entries : list (string * pyval)) (m : pyval) :
  get_json req = Ok (PDict entries) ->
  dict_lookup "message" entries = Some m ->
  dict_lookup "context" entries = None ->
  provider_calls (snd (chat req model w)) =
    (if stdout_accepts w m
     then calls_with w (SYSTEM_PROMPT ++ nl ++ nl ++ "User: " ++ py_str m)
     else provider_calls w) /\
  (forall s, m = PStr s -> py_str m = s).
Proof.
  intros Hjson Hmsg Hno. split.
  - apply (chat_calls_if req model w entries m Hjson Hmsg "");
      unfold context_of; rewrite Hno; reflexivity.
  - intros s ->. reflexivity.
Qed.

Lemma C1_witness :
  provider_calls
    (snd (chat (post_chat (PDict [("message", PStr "What is a SIP?")]))
               sample_model empty_world)) =
    calls_with empty_world
      (SYSTEM_PROMPT ++ nl ++ nl ++ "User: " ++ "What is a SIP?").
Proof.
  exact (proj1 (C1_prompt_without_context
                  (post_chat (PDict [("message", PStr "What is a SIP?")]))
                  sample_model empty_world _ _ eq_refl eq_refl eq_refl)).
Defined.

(** C2, as the code has it.  A parsed body that is falsy, an object
    without key [message], an array that does not list ["message"], or a
    string that does not contain it and that standard output can encode,
    is answered with [{success: false, error: "Message is required"}]
    and status 400 without a provider call; every other parsed body is
    answered with another status.  When [get_json] raises, the provider
    is not called either, and a response, if the view gives one, is the
    500 envelope with the text of the exception. *)
Theorem C2_missing_message_is_400 (req : request) (model : provider)
    (w : world) :
  (forall data,
     get_json req = Ok data ->
     (lacks_message (stdout_errors w) data ->
      fst (chat req model w) = Ok message_required /\
      provider_calls (snd (chat req model w)) = provider_calls w) /\
     (~ lacks_message (stdout_errors w) data ->
      forall r, fst (chat req model w) = Ok r -> status r <> 400%Z)) /\
  (forall e,
     get_json req = Raise e ->
     provider_calls (snd (chat req model w)) = provider_calls w /\
     forall r, fst (chat req model w) = Ok r -> r = server_error (exc_str e)).
Proof.
  split.
  - intros data Hjson. split.
    + intros Hlacks.
      destruct Hlacks as [Hfalsy | [(d & -> & Hd) | [(l & -> & Hl) | (s & -> & Hs & Henc)]]].
      * apply (chat_rejects req model w data Hjson);
          [now apply falsy_printable | now left].
      * apply (chat_rejects req model w _ Hjson);
          [apply encodes_py_str; intros ? [=] | right; cbn; now rewrite Hd].
      * apply (chat_rejects req model w _ Hjson);
          [apply encodes_py_str; intros ? [=] | right; cbn; now rewrite Hl].
      * apply (chat_rejects req model w _ Hjson);
          [exact Henc | right; cbn; now rewrite Hs].
    + intros Hnot r Hr.
      assert (Hstatus : forall e,
                fst (chat req model w) = outcome_after (stdout_errors w) e ->
                status r <> 400%Z).
      { intros e He. rewrite He in Hr.
        rewrite (outcome_after_reply _ _ _ Hr). discriminate. }
      assert (Htruthy : truthy data = true).
      { destruct (truthy data) eqn:E; [reflexivity|].
        exfalso. apply Hnot. now left. }
      destruct (encodes (stdout_errors w) (py_str data)) eqn:Hdata.
      2:{ destruct (first_refused_failing_line (stdout_errors w)
                      "📦 Request data: " (py_str data) eq_refl Hdata)
            as (a & b & c & E).
          destruct (chat_unprintable_body req model w data a b c Hjson E)
            as [H _]. rewrite H in Hr. injection Hr as <-. discriminate. }
      destruct data as [ | b | n | nz t | s | items | entries ].
      * discriminate Htruthy.
      * exact (Hstatus _ (proj1 (chat_raises_early req model w _ _ Hjson
                                   Hdata Htruthy (or_introl eq_refl)))).
      * exact (Hstatus _ (proj1 (chat_raises_early req model w _ _ Hjson
                                   Hdata Htruthy (or_introl eq_refl)))).
      * exact (Hstatus _ (proj1 (chat_raises_early req model w _ _ Hjson
                                   Hdata Htruthy (or_introl eq_refl)))).
      * destruct (str_contains "message" s) eqn:E.
        -- exact (Hstatus _ (proj1 (chat_raises_early req model w _ _ Hjson
                                      Hdata Htruthy
                                      (or_intror (conj (f_equal Ok E) eq_refl))))).
        -- exfalso. apply Hnot. right. right. right. exists s.
           split; [reflexivity|]. split; [exact E | exact Hdata].
      * destruct (list_has_str "message" items) eqn:E.
        -- exact (Hstatus _ (proj1 (chat_raises_early req model w _ _ Hjson
                                      Hdata Htruthy
                                      (or_intror (conj (f_equal Ok E) eq_refl))))).
        -- exfalso. apply Hnot. right. right. left. exists items.
           split; [reflexivity | exact E].
      * destruct (dict_lookup "message" entries) as [m|] eqn:Hmsg.
        2:{ exfalso. apply Hnot. right. left. exists entries.
            split; [reflexivity | exact Hmsg]. }
        destruct (encodes (stdout_errors w) (py_str m)) eqn:Hm.
        2:{ destruct (first_refused_failing_line (stdout_errors w)
                        "💬 User message: " (py_str m) eq_refl Hm)
              as (a & b & c & E).
            destruct (chat_unprintable_message req model w entries m Hjson
                        Hmsg a b c E) as [H _].
            rewrite H in Hr. injection Hr as <-. discriminate. }
        destruct (encodes (stdout_errors w) (py_str (context_of entries)))
          eqn:Hc.
        2:{ destruct (first_refused_failing_line (stdout_errors w)
                        "🔍 Context: " (py_str (context_of entries)) eq_refl Hc)
              as (a & b & c & E).
            destruct (chat_unprintable_context req model w entries m Hjson
                        Hmsg Hm a b c E) as [H _].
            rewrite H in Hr. injection Hr as <-. discriminate. }
        destruct (build_context_info (context_of entries)) as [ci|e] eqn:Hctx.
        -- rewrite (chat_response req model w entries m Hjson Hmsg Hm Hc ci Hctx)
             in Hr.
           exact (reply_to_prompt_status _ _ _ _ Hr).
        -- exact (Hstatus _ (proj1 (chat_context_raises req model w entries m
                                      Hjson Hmsg Hm Hc e Hctx))).
  - intros e Hjson.
    destruct (chat_unparsed_body req model w e Hjson) as [Hreply Hcalls].
    split; [exact Hcalls|]. intros r Hr. rewrite Hreply in Hr.
    exact (outcome_after_reply _ _ _ Hr).
Qed.

Lemma C2_witness :
  fst (chat (post_chat (PDict [])) sample_model empty_world) =
    Ok message_required /\
  provider_calls (snd (chat (post_chat (PDict [])) sample_model empty_world)) =
    provider_calls empty_world.
Proof.
  apply (proj1 (C2_missing_message_is_400 (post_chat (PDict [])) sample_model
                  empty_world) (PDict []) eq_refl).
  left. reflexivity.
Defined.

(** C2 as stated fails: the body [5] parses, is no object with key
    [message], and is answered with status 500. *)
Lemma C2_counterexample :
  fst (chat (post_chat (PInt 5)) sample_model empty_world) =
    Ok (server_error "argument of type 'int' is not iterable") /\
  fst (chat (post_chat (PInt 5)) sample_model empty_world) <>
    Ok message_required.
Proof.
  split; vm_compute; [reflexivity | discriminate].
Qed.

(** C3, as the code has it.  Whenever a step of the [try:] suite of
    [chat] raises an exception [e] that derives from [Exception] and
    whose text and class name hold no lone surrogate, so that the
    [except] suite can print them, the view returns status 500 with
    [success: false] and [error: str(e)] (which may be empty); and the
    response to any later request is the one it would have had without
    the failed request. *)
Theorem C3_failure_becomes_500 (req : request) (model : provider)
    (w w' : world) (e : pyexc) (later : request) (later_model : provider) :
  chat_try req model w = (Raise e, w') ->
  exc_root_of e = FromException ->
  exc_printable e = true ->
  fst (chat req model w) = Ok (server_error (exc_str e)) /\
  fst (chat later later_model (snd (chat req model w))) =
    fst (chat later later_model w).
Proof.
  intros Hraise Hroot Hprintable. split.
  - unfold chat, try_except_Exception. rewrite Hraise, Hroot.
    exact (proj1 (chat_except_printable e w' Hprintable)).
  - apply chat_response_any_world, chat_keeps_handler.
Qed.

Lemma C3_witness :
  fst (chat sample_chat_request (failing_model quota_exceeded) empty_world) =
    Ok (server_error "429 Resource has been exhausted") /\
  fst (chat sample_chat_request sample_model
         (snd (chat sample_chat_request (failing_model quota_exceeded)
                 empty_world))) =
    fst (chat sample_chat_request sample_model empty_world).
Proof.
  exact (C3_failure_becomes_500 sample_chat_request
           (failing_model quota_exceeded) empty_world
           (snd (chat_try sample_chat_request (failing_model quota_exceeded)
                   empty_world))
           quota_exceeded sample_chat_request sample_model
           eq_refl eq_refl eq_refl).
Defined.

(** C3 as stated fails: a provider that raises [TimeoutError()] makes
    the view answer with an empty [error] string. *)
Lemma C3_counterexample :
  fst (chat sample_chat_request
         (failing_model (mk_exc FromException "TimeoutError" ""))
         empty_world) =
    Ok (mk_response (jsonify [("success", PBool false); ("error", PStr "")])
          500).
Proof. vm_compute. reflexivity. Qed.

(** C4.  When the context is an object with key [balance] bound to [v],
    the prompt handed to the provider holds ["Current balance: ₹"]
    directly followed by the text of [v], and that occurrence lies before
    the final ["\n\nUser: "] that introduces the message.  The prompt is
    handed whenever the [print] of the message goes through; otherwise
    the view fails before it calls the provider. *)
Theorem C4_balance_before_user (req : request) (model : provider)
    (w : world) (entries context : list (string * pyval)) (m v : pyval) :
  get_json req = Ok (PDict entries) ->
  dict_lookup "message" entries = Some m ->
  dict_lookup "context" entries = Some (PDict context) ->
  dict_lookup "balance" context = Some v ->
  exists before between : string,
    provider_calls (snd (chat req model w)) =
      if stdout_accepts w m
      then calls_with w
             (before ++ "Current balance: ₹" ++ py_str v ++ between
                     ++ nl ++ nl ++ "User: " ++ py_str m)
      else provider_calls w.
Proof.
  intros Hjson Hmsg Hctx Hbal.
  exists (SYSTEM_PROMPT
          ++ label_line (nl ++ nl ++ "User's recent transactions:" ++ nl)
               (dict_lookup "transactions" context)
          ++ nl ++ nl).
  exists (label_line (nl ++ nl ++ "Monthly expenses: ₹")
            (dict_lookup "monthly_expenses" context)
          ++ label_line (nl ++ "Monthly income: ₹")
               (dict_lookup "monthly_income" context)).
  rewrite (chat_calls_if req model w entries m Hjson Hmsg (context_lines context)
             (dict_context_printable _ _ _ Hctx) (dict_context_lines _ _ Hctx)).
  destruct (stdout_accepts w m); [|reflexivity].
  f_equal. unfold context_lines, context_fields.
  cbn -[String.append label_line dict_lookup nl].
  rewrite Hbal. cbn [label_line].
  rewrite !append_assoc. reflexivity.
Qed.

Lemma C4_witness :
  exists before between : string,
    provider_calls (snd (chat sample_context_request sample_model empty_world)) =
      calls_with empty_world
        (before ++ "Current balance: ₹" ++ "2500" ++ between
                ++ nl ++ nl ++ "User: " ++ "Can I afford a trip?").
Proof.
  exact (C4_balance_before_user sample_context_request sample_model
           empty_world _ _ _ (PInt 2500) eq_refl eq_refl eq_refl eq_refl).
Defined.

(** C5.  When the context is an object, the prompt handed to the
    provider is [SYSTEM_PROMPT], then one label line for each recognized
    key the object has, in the order transactions, balance,
    monthly_expenses, monthly_income, and nothing for an absent key, then
    the ["User: "] line.  The prompt is handed whenever the [print] of
    the message goes through; otherwise the view fails before it calls
    the provider. *)
Theorem C5_label_lines_in_order (req : request) (model : provider)
    (w : world) (entries context : list (string * pyval)) (m : pyval) :
  get_json req = Ok (PDict entries) ->
  dict_lookup "message" entries = Some m ->
  dict_lookup "context" entries = Some (PDict context) ->
  map fst context_fields =
    ["transactions"; "balance"; "monthly_expenses"; "monthly_income"] /\
  provider_calls (snd (chat req model w)) =
    if stdout_accepts w m
    then calls_with w
           (SYSTEM_PROMPT ++ context_lines context ++ nl ++ nl ++ "User: "
                          ++ py_str m)
    else provider_calls w.
Proof.
  intros Hjson Hmsg Hctx. split; [reflexivity|].
  exact (chat_calls_if req model w entries m Hjson Hmsg (context_lines context)
           (dict_context_printable _ _ _ Hctx) (dict_context_lines _ _ Hctx)).
Qed.

Lemma C5_witness :
  map fst context_fields =
    ["transactions"; "balance"; "monthly_expenses"; "monthly_income"] /\
  provider_calls (snd (chat sample_context_request sample_model empty_world)) =
    calls_with empty_world
      (SYSTEM_PROMPT
         ++ context_lines [("monthly_income", PInt 4000); ("plan", PStr "gold");
                           ("balance", PInt 2500)]
         ++ nl ++ nl ++ "User: " ++ "Can I afford a trip?").
Proof.
  exact (C5_label_lines_in_order sample_context_request sample_model
           empty_world _ _ _ eq_refl eq_refl eq_refl).
Defined.

(** C6.  Two bodies with the same message, one with a context object and
    one with that object stripped of its unrecognized keys, hand the same
    prompt to the provider and get the same response. *)
Theorem C6_unrecognized_keys_ignored (req req' : request) (model : provider)
    (w : world) (entries entries' context : list (string * pyval))
    (m : pyval) :
  get_json req = Ok (PDict entries) ->
  get_json req' = Ok (PDict entries') ->
  dict_lookup "message" entries = Some m ->
  dict_lookup "message" entries' = Some m ->
  dict_lookup "context" entries = Some (PDict context) ->
  dict_lookup "context" entries' = Some (PDict (drop_unrecognized context)) ->
  provider_calls (snd (chat req model w)) =
    provider_calls (snd (chat req' model w)) /\
  fst (chat req model w) = fst (chat req' model w).
Proof.
  intros Hjson Hjson' Hmsg Hmsg' Hctx Hctx'.
  apply (chat_same_texts req req' model w entries entries' m m
           (context_lines context) Hjson Hjson' Hmsg Hmsg' eq_refl
           (dict_context_printable _ _ _ Hctx)
           (dict_context_printable _ _ _ Hctx')
           (dict_context_lines _ _ Hctx)).
  rewrite (dict_context_lines _ _ Hctx').
  now rewrite context_lines_drop_unrecognized.
Qed.

Lemma C6_witness :
  provider_calls (snd (chat sample_context_request sample_model empty_world)) =
    provider_calls
      (snd (chat sample_recognized_request sample_model empty_world)) /\
  fst (chat sample_context_request sample_model empty_world) =
    fst (chat sample_recognized_request sample_model empty_world).
Proof.
  exact (C6_unrecognized_keys_ignored sample_context_request
           sample_recognized_request sample_model empty_world _ _ _ _
           eq_refl eq_refl eq_refl eq_refl eq_refl eq_refl).
Defined.

(** C7.  A [GET /health] request is routed to [health_check], which
    returns status 200 with [{status: "OK", message: "RampageAI Chatbot
    API is running"}] whatever the rest of the request and the provider
    are, never raises, and leaves the world as it was. *)
Theorem C7_health_is_fixed (req : request) (model : provider) (w : world) :
  method req = "GET" ->
  path req = "/health" ->
  exists handler : M response,
    dispatch_request req model = Some handler /\
    handler w =
      (Ok (mk_response
             (PDict [("status", PStr "OK");
                     ("message", PStr "RampageAI Chatbot API is running")])
             200),
       w).
Proof.
  intros Hmethod Hpath. exists health_check. split; [|reflexivity].
  unfold dispatch_request. rewrite Hmethod, Hpath. reflexivity.
Qed.

Lemma C7_witness :
  exists handler : M response,
    dispatch_request (mk_request "GET" "/health" (Raise quota_exceeded))
      (failing_model quota_exceeded) = Some handler /\
    handler empty_world =
      (Ok (mk_response
             (PDict [("status", PStr "OK");
                     ("message", PStr "RampageAI Chatbot API is running")])
             200),
       empty_world).
Proof.
  exact (C7_health_is_fixed (mk_request "GET" "/health" (Raise quota_exceeded))
           (failing_model quota_exceeded) empty_world eq_refl eq_refl).
Defined.

(** C8.  In the prompt that [chat] hands to the provider for a context
    object, the lines for transactions, balance and monthly_expenses are
    each preceded by two newline characters and the line for
    monthly_income by one only.  The prompt is handed whenever the
    [print] of the message goes through. *)
Theorem C8_separators_differ (req : request) (model : provider) (w : world)
    (entries context : list (string * pyval)) (m : pyval) :
  get_json req = Ok (PDict entries) ->
  dict_lookup "message" entries = Some m ->
  dict_lookup "context" entries = Some (PDict context) ->
  provider_calls (snd (chat req model w)) =
    (if stdout_accepts w m
     then calls_with w
            (SYSTEM_PROMPT
               ++ label_line (nl ++ nl ++ "User's recent transactions:" ++ nl)
                    (dict_lookup "transactions" context)
               ++ label_line (nl ++ nl ++ "Current balance: ₹")
                    (dict_lookup "balance" context)
               ++ label_line (nl ++ nl ++ "Monthly expenses: ₹")
                    (dict_lookup "monthly_expenses" context)
               ++ label_line (nl ++ "Monthly income: ₹")
                    (dict_lookup "monthly_income" context)
               ++ nl ++ nl ++ "User: " ++ py_str m)
     else provider_calls w) /\
  String.prefix (nl ++ nl) (nl ++ "Monthly income: ₹") = false.
Proof.
  intros Hjson Hmsg Hctx. split; [|reflexivity].
  rewrite (chat_calls_if req model w entries m Hjson Hmsg (context_lines context)
             (dict_context_printable _ _ _ Hctx) (dict_context_lines _ _ Hctx)).
  destruct (stdout_accepts w m); [|reflexivity].
  f_equal. unfold context_lines, context_fields.
  cbn -[String.append label_line dict_lookup nl].
  rewrite !append_assoc. reflexivity.
Qed.

Lemma C8_witness :
  provider_calls (snd (chat sample_budget_request sample_model empty_world)) =
    calls_with empty_world
      (SYSTEM_PROMPT
         ++ (nl ++ nl ++ "Monthly expenses: ₹" ++ "1800")
         ++ (nl ++ "Monthly income: ₹" ++ "4000")
         ++ nl ++ nl ++ "User: " ++ "Can I save more?") /\
  String.prefix (nl ++ nl) (nl ++ "Monthly income: ₹") = false.
Proof.
  exact (C8_separators_differ sample_budget_request sample_model empty_world
           _ _ _ eq_refl eq_refl eq_refl).
Defined.

(** C9.  A body whose [context] is present but falsy hands the provider
    the same prompt, and gets the same response, as a body with the same
    message and no [context] at all: [SYSTEM_PROMPT], two newlines,
    ["User: "] and the message, with no context line, handed whenever
    the [print] of the message goes through. *)
Theorem C9_falsy_context_is_no_context (req req' : request) (model : provider)
    (w : world) (entries entries' : list (string * pyval)) (m c : pyval) :
  get_json req = Ok (PDict entries) ->
  get_json req' = Ok (PDict entries') ->
  dict_lookup "message" entries = Some m ->
  dict_lookup "message" entries' = Some m ->
  dict_lookup "context" entries = Some c ->
  truthy c = false ->
  dict_lookup "context" entries' = None ->
  provider_calls (snd (chat req model w)) =
    (if stdout_accepts w m
     then calls_with w (SYSTEM_PROMPT ++ nl ++ nl ++ "User: " ++ py_str m)
     else provider_calls w) /\
  provider_calls (snd (chat req model w)) =
    provider_calls (snd (chat req' model w)) /\
  fst (chat req model w) = fst (chat req' model w).
Proof.
  intros Hjson Hjson' Hmsg Hmsg' Hctx Hfalsy Hctx'.
  assert (Hc : encodes (stdout_errors w) (py_str (context_of entries)) = true).
  { unfold context_of. rewrite Hctx. now apply falsy_printable. }
  assert (Hc' : encodes (stdout_errors w) (py_str (context_of entries')) = true).
  { unfold context_of. rewrite Hctx'. reflexivity. }
  assert (H : build_context_info (context_of entries) = Ok "").
  { unfold context_of. rewrite Hctx. now apply build_context_info_falsy. }
  assert (H' : build_context_info (context_of entries') = Ok "").
  { unfold context_of. rewrite Hctx'. reflexivity. }
  split.
  - exact (chat_calls_if req model w entries m Hjson Hmsg "" Hc H).
  - exact (chat_same_texts req req' model w entries entries' m m ""
             Hjson Hjson' Hmsg Hmsg' eq_refl Hc Hc' H H').
Qed.

Lemma C9_witness :
  provider_calls
    (snd (chat sample_null_context_request sample_model empty_world)) =
    calls_with empty_world
      (SYSTEM_PROMPT ++ nl ++ nl ++ "User: " ++ "What is a SIP?") /\
  provider_calls
    (snd (chat sample_null_context_request sample_model empty_world)) =
    provider_calls (snd (chat sample_chat_request sample_model empty_world)) /\
  fst (chat sample_null_context_request sample_model empty_world) =
    fst (chat sample_chat_request sample_model empty_world).
Proof.
  exact (C9_falsy_context_is_no_context sample_null_context_request
           sample_chat_request sample_model empty_world _ _ _ PNone
           eq_refl eq_refl eq_refl eq_refl eq_refl eq_refl eq_refl).
Defined.

(** C10.  The module-level check raises [ValueError] both when the key
    variable is unset and when it is set to the empty string, so that
    [startup] yields no configuration in either case. *)
Theorem C10_startup_rejects_falsy_key (env : option string) :
  env = None \/ env = Some "" ->
  startup env =
    Raise (ValueError "GOOGLE_API_KEY not found in environment variables!") /\
  (forall config, startup env <> Ok config).
Proof.
  intros [-> | ->]; split; try reflexivity; intros config; discriminate.
Qed.

Lemma C10_witness :
  startup (Some "") =
    Raise (ValueError "GOOGLE_API_KEY not found in environment variables!") /\
  (forall config, startup (Some "") <> Ok config).
Proof.
  exact (C10_startup_rejects_falsy_key (Some "") (or_intror eq_refl)).
Defined.

(* ================================================================== *)
(** ** Further properties of the views *)

Lemma chat_except_extends (e : pyexc) (w : world) :
  exists later, stdout (snd (chat_except e w)) = (stdout w ++ later)%list.
Proof.
  unfold chat_except, bind, print, ret. run.
  destruct (first_refused (stdout_errors w) _ 0) as [[[a b] c]|]; run.
  { exists []. now rewrite app_nil_r. }
  destruct (first_refused (stdout_errors w) _ 0) as [[[a b] c]|]; run;
    eexists; [|rewrite <- app_assoc]; reflexivity.
Qed.

(** A request whose body is no object with key [message] never reaches
    the provider. *)
Lemma chat_calls_unchanged_early (req : request) (model : provider)
    (w : world) (data : pyval) :
  get_json req = Ok data ->
  (forall entries, data = PDict entries ->
                   dict_lookup "message" entries = None) ->
  provider_calls (snd (chat req model w)) = provider_calls w.
Proof.
  intros Hjson Hnone.
  destruct (encodes (stdout_errors w) (py_str data)) eqn:Hdata.
  2:{ destruct (first_refused_failing_line (stdout_errors w)
                  "📦 Request data: " (py_str data) eq_refl Hdata)
        as (a & b & c & E).
      exact (proj2 (chat_unprintable_body req model w data a b c Hjson E)). }
  destruct (truthy data) eqn:Htruthy.
  2:{ apply (chat_rejects req model w data Hjson Hdata). now left. }
  destruct data as [ | b | n | nz t | s | items | entries ].
  - discriminate Htruthy.
  - exact (proj2 (chat_raises_early req model w _ _ Hjson Hdata Htruthy
                    (or_introl eq_refl))).
  - exact (proj2 (chat_raises_early req model w _ _ Hjson Hdata Htruthy
                    (or_introl eq_refl))).
  - exact (proj2 (chat_raises_early req model w _ _ Hjson Hdata Htruthy
                    (or_introl eq_refl))).
  - destruct (str_contains "message" s) eqn:E.
    + exact (proj2 (chat_raises_early req model w _ _ Hjson Hdata Htruthy
                      (or_intror (conj (f_equal Ok E) eq_refl)))).
    + apply (chat_rejects req model w _ Hjson Hdata). right. cbn. now rewrite E.
  - destruct (list_has_str "message" items) eqn:E.
    + exact (proj2 (chat_raises_early req model w _ _ Hjson Hdata Htruthy
                      (or_intror (conj (f_equal Ok E) eq_refl)))).
    + apply (chat_rejects req model w _ Hjson Hdata). right. cbn. now rewrite E.
  - apply (chat_rejects req model w _ Hjson Hdata). right. cbn.
    now rewrite (Hnone entries eq_refl).
Qed.

(** X1.  When the texts the view prints can be written, the provider
    returns and its text can be read, the view answers 200 with
    [success: true] and that text unchanged, whatever the text is. *)
Theorem X1_generated_text_is_relayed (req : request) (model : provider)
    (w : world) (entries : list (string * pyval)) (m : pyval)
    (context_info : string) (generated : GenerateContentResponse)
    (generated_text : string) :
  get_json req = Ok (PDict entries) ->
  dict_lookup "message" entries = Some m ->
  stdout_accepts w m = true ->
  stdout_accepts w (context_of entries) = true ->
  build_context_info (context_of entries) = Ok context_info ->
  model (full_prompt_of context_info m) generation_config = Ok generated ->
  text generated = Ok generated_text ->
  fst (chat req model w) =
    Ok (mk_response
          (PDict [("success", PBool true); ("response", PStr generated_text)])
          200).
Proof.
  intros Hjson Hmsg Hm Hc Hctx Hcall Htext.
  rewrite (chat_response req model w entries m Hjson Hmsg Hm Hc _ Hctx).
  unfold reply_to_prompt. unfold full_prompt_of in Hcall.
  rewrite Hcall, Htext. reflexivity.
Qed.

Lemma X1_witness :
  fst (chat sample_chat_request (fun _ _ => Ok (mk_gen_response (Ok "")))
         empty_world) =
    Ok (mk_response (PDict [("success", PBool true); ("response", PStr "")])
          200).
Proof.
  exact (X1_generated_text_is_relayed sample_chat_request
           (fun _ _ => Ok (mk_gen_response (Ok ""))) empty_world
           _ _ "" (mk_gen_response (Ok "")) ""
           eq_refl eq_refl eq_refl eq_refl eq_refl eq_refl eq_refl).
Defined.

(** X2.  A request leads to no provider call or to exactly one; the one
    call is made for an object body with key [message], carries the
    preamble, the context text and the user line, and always the fixed
    configuration.  Earlier calls stay recorded. *)
Theorem X2_at_most_one_provider_call (req : request) (model : provider)
    (w : world) :
  provider_calls (snd (chat req model w)) = provider_calls w \/
  exists entries m context_info,
    get_json req = Ok (PDict entries) /\
    dict_lookup "message" entries = Some m /\
    build_context_info (context_of entries) = Ok context_info /\
    provider_calls (snd (chat req model w)) =
      (provider_calls w ++
         [(full_prompt_of context_info m, mk_config "0.7" 1024)])%list.
Proof.
  destruct (get_json req) as [data|e] eqn:Hjson.
  - destruct data as [ | b | n | nz t | s | items | entries ];
      try solve [left; apply (chat_calls_unchanged_early req model w _ Hjson);
                 intros entries' [=]].
    destruct (dict_lookup "message" entries) as [m|] eqn:Hmsg.
    2:{ left. apply (chat_calls_unchanged_early req model w _ Hjson).
        intros entries' [= <-]. exact Hmsg. }
    destruct (encodes (stdout_errors w) (py_str m)) eqn:Hm.
    2:{ destruct (first_refused_failing_line (stdout_errors w)
                    "💬 User message: " (py_str m) eq_refl Hm)
          as (a & b & c & E).
        left. exact (proj2 (chat_unprintable_message req model w entries m
                              Hjson Hmsg a b c E)). }
    destruct (encodes (stdout_errors w) (py_str (context_of entries))) eqn:Hc.
    2:{ destruct (first_refused_failing_line (stdout_errors w)
                    "🔍 Context: " (py_str (context_of entries)) eq_refl Hc)
          as (a & b & c & E).
        left. exact (proj2 (chat_unprintable_context req model w entries m
                              Hjson Hmsg Hm a b c E)). }
    destruct (build_context_info (context_of entries)) as [ci|e] eqn:Hctx.
    + right. exists entries, m, ci. repeat split; try assumption.
      exact (chat_calls req model w entries m Hjson Hmsg Hm Hc ci Hctx).
    + left. exact (proj2 (chat_context_raises req model w entries m
                            Hjson Hmsg Hm Hc e Hctx)).
  - left. exact (proj2 (chat_unparsed_body req model w e Hjson)).
Qed.

(** X3.  Whatever the request and the provider do, the view either
    returns one of three envelopes (200 with the generated text, 400
    with the fixed message, 500 with a description), or lets through an
    exception that does not derive from [Exception], or raises the
    [UnicodeEncodeError] of a [print] in its [except] suite. *)
Theorem X3_reply_envelope (req : request) (model : provider) (w : world) :
  (exists r, fst (chat req model w) = Ok r /\ well_formed_reply r) \/
  (exists e, fst (chat req model w) = Raise e /\
             (exc_root_of e = FromBaseExceptionOnly \/
              exc_class e = "UnicodeEncodeError")).
Proof.
  unfold well_formed_reply.
  assert (Hafter : forall e,
    (exists r, outcome_after (stdout_errors w) e = Ok r /\
       ((exists generated_text,
           r = mk_response
                 (PDict [("success", PBool true);
                         ("response", PStr generated_text)]) 200) \/
        r = message_required \/
        (exists description, r = server_error description))) \/
    (exists e', outcome_after (stdout_errors w) e = Raise e' /\
                (exc_root_of e' = FromBaseExceptionOnly \/
                 exc_class e' = "UnicodeEncodeError"))).
  { intros e. destruct (outcome_after (stdout_errors w) e) as [r|e'] eqn:H.
    - left. exists r. split; [reflexivity|]. right. right.
      exists (exc_str e). exact (outcome_after_reply _ _ _ H).
    - right. exists e'. split; [reflexivity|].
      exact (outcome_after_raise _ _ _ H). }
  assert (Hcodec : forall a b c,
    fst (chat req model w) =
      Ok (server_error (exc_str (UnicodeEncodeError a b c))) ->
    exists r, fst (chat req model w) = Ok r /\
      ((exists generated_text,
          r = mk_response
                (PDict [("success", PBool true);
                        ("response", PStr generated_text)]) 200) \/
       r = message_required \/
       (exists description, r = server_error description))).
  { intros a b c H. eexists. split; [exact H|]. right. right. now eexists. }
  destruct (get_json req) as [data|e] eqn:Hjson.
  2:{ rewrite (proj1 (chat_unparsed_body req model w e Hjson)). apply Hafter. }
  destruct (encodes (stdout_errors w) (py_str data)) eqn:Hdata.
  2:{ destruct (first_refused_failing_line (stdout_errors w)
                  "📦 Request data: " (py_str data) eq_refl Hdata)
        as (a & b & c & E).
      left. apply (Hcodec a b c).
      exact (proj1 (chat_unprintable_body req model w data a b c Hjson E)). }
  assert (Hreject : truthy data = false \/ py_in "message" data = Ok false ->
    exists r, fst (chat req model w) = Ok r /\
      ((exists generated_text,
          r = mk_response
                (PDict [("success", PBool true);
                        ("response", PStr generated_text)]) 200) \/
       r = message_required \/
       (exists description, r = server_error description))).
  { intros Hlacks. exists message_required. split.
    - exact (proj1 (chat_rejects req model w data Hjson Hdata Hlacks)).
    - right. now left. }
  destruct (truthy data) eqn:Htruthy; [|left; apply Hreject; now left].
  destruct data as [ | b | n | nz t | s | items | entries ].
  - discriminate Htruthy.
  - rewrite (proj1 (chat_raises_early req model w _ _ Hjson Hdata Htruthy
                      (or_introl eq_refl))). apply Hafter.
  - rewrite (proj1 (chat_raises_early req model w _ _ Hjson Hdata Htruthy
                      (or_introl eq_refl))). apply Hafter.
  - rewrite (proj1 (chat_raises_early req model w _ _ Hjson Hdata Htruthy
                      (or_introl eq_refl))). apply Hafter.
  - destruct (str_contains "message" s) eqn:E.
    + rewrite (proj1 (chat_raises_early req model w _ _ Hjson Hdata Htruthy
                        (or_intror (conj (f_equal Ok E) eq_refl)))).
      apply Hafter.
    + left. apply Hreject. right. cbn. now rewrite E.
  - destruct (list_has_str "message" items) eqn:E.
    + rewrite (proj1 (chat_raises_early req model w _ _ Hjson Hdata Htruthy
                        (or_intror (conj (f_equal Ok E) eq_refl)))).
      apply Hafter.
    + left. apply Hreject. right. cbn. now rewrite E.
  - destruct (dict_lookup "message" entries) as [m|] eqn:Hmsg.
    2:{ left. apply Hreject. right. cbn. now rewrite Hmsg. }
    destruct (encodes (stdout_errors w) (py_str m)) eqn:Hm.
    2:{ destruct (first_refused_failing_line (stdout_errors w)
                    "💬 User message: " (py_str m) eq_refl Hm)
          as (a & b & c & E).
        left. apply (Hcodec a b c).
        exact (proj1 (chat_unprintable_message req model w entries m
                        Hjson Hmsg a b c E)). }
    destruct (encodes (stdout_errors w) (py_str (context_of entries))) eqn:Hc.
    2:{ destruct (first_refused_failing_line (stdout_errors w)
                    "🔍 Context: " (py_str (context_of entries)) eq_refl Hc)
          as (a & b & c & E).
        left. apply (Hcodec a b c).
        exact (proj1 (chat_unprintable_context req model w entries m
                        Hjson Hmsg Hm a b c E)). }
    destruct (build_context_info (context_of entries)) as [ci|e] eqn:Hctx.
    + rewrite (chat_response req model w entries m Hjson Hmsg Hm Hc ci Hctx).
      unfold reply_to_prompt.
      destruct (model _ _) as [generated|e]; [|apply Hafter].
      destruct (text generated) as [t|e]; [|apply Hafter].
      left. eexists. split; [reflexivity|]. left. now eexists.
    + rewrite (proj1 (chat_context_raises req model w entries m
                        Hjson Hmsg Hm Hc e Hctx)). apply Hafter.
Qed.

(** X4.  A context that is a non-zero number or [true], with a message
    that can be printed, makes the first membership test raise: the view
    answers 500 with the [TypeError] text and the provider is not
    called. *)
Theorem X4_scalar_context_is_500 (req : request) (model : provider)
    (w : world) (entries : list (string * pyval)) (m c : pyval) :
  get_json req = Ok (PDict entries) ->
  dict_lookup "message" entries = Some m ->
  stdout_accepts w m = true ->
  dict_lookup "context" entries = Some c ->
  is_scalar c = true ->
  truthy c = true ->
  fst (chat req model w) =
    Ok (server_error ("argument of type '" ++ type_name c
                        ++ "' is not iterable")) /\
  provider_calls (snd (chat req model w)) = provider_calls w.
Proof.
  intros Hjson Hmsg Hm Hctx Hscalar Htruthy.
  assert (Hc : encodes (stdout_errors w) (py_str (context_of entries)) = true).
  { unfold context_of. rewrite Hctx. apply encodes_py_str.
    intros s ->. discriminate Hscalar. }
  destruct (chat_context_raises req model w entries m Hjson Hmsg Hm Hc
              (TypeError ("argument of type '" ++ type_name c
                            ++ "' is not iterable")))
    as [Hreply Hcalls].
  { unfold context_of. rewrite Hctx. now apply build_context_info_scalar. }
  split; [|exact Hcalls]. rewrite Hreply.
  apply outcome_after_printable; [reflexivity | apply not_iterable_printable].
Qed.

Lemma X4_witness :
  fst (chat (post_chat (PDict [("message", PStr "hi"); ("context", PInt 7)]))
         sample_model empty_world) =
    Ok (server_error "argument of type 'int' is not iterable") /\
  provider_calls
    (snd (chat (post_chat (PDict [("message", PStr "hi"); ("context", PInt 7)]))
            sample_model empty_world)) = provider_calls empty_world.
Proof.
  exact (X4_scalar_context_is_500
           (post_chat (PDict [("message", PStr "hi"); ("context", PInt 7)]))
           sample_model empty_world _ _ (PInt 7)
           eq_refl eq_refl eq_refl eq_refl eq_refl eq_refl).
Defined.

(** X5.  A context of any kind in which none of the four recognized keys
    is found (an object without them, an array that does not list them,
    a string that does not contain them) adds nothing: when the message
    and the context can be printed, the prompt is the preamble followed
    by the user line. *)
Theorem X5_context_without_fields_adds_nothing (req : request)
    (model : provider) (w : world) (entries : list (string * pyval))
    (m c : pyval) :
  get_json req = Ok (PDict entries) ->
  dict_lookup "message" entries = Some m ->
  stdout_accepts w m = true ->
  dict_lookup "context" entries = Some c ->
  stdout_accepts w c = true ->
  (forall key, In key (map fst context_fields) -> py_in key c = Ok false) ->
  provider_calls (snd (chat req model w)) =
    calls_with w (SYSTEM_PROMPT ++ nl ++ nl ++ "User: " ++ py_str m).
Proof.
  intros Hjson Hmsg Hm Hctx Hc Hnone.
  apply (chat_calls req model w entries m Hjson Hmsg Hm).
  - unfold context_of. now rewrite Hctx.
  - unfold context_of. rewrite Hctx. now apply build_context_info_no_field.
Qed.

Lemma X5_witness :
  provider_calls
    (snd (chat (post_chat (PDict [("message", PStr "hi");
                                  ("context", PStr "my savings are low")]))
            sample_model empty_world)) =
    calls_with empty_world (SYSTEM_PROMPT ++ nl ++ nl ++ "User: " ++ "hi").
Proof.
  apply (X5_context_without_fields_adds_nothing
           (post_chat (PDict [("message", PStr "hi");
                              ("context", PStr "my savings are low")]))
           sample_model empty_world _ (PStr "hi") (PStr "my savings are low")
           eq_refl eq_refl eq_refl eq_refl eq_refl).
  intros key [<- | [<- | [<- | [<- | []]]]]; reflexivity.
Defined.

(** X6.  A context that is a string containing a recognized key, or an
    array listing one, passes the membership test and fails on the
    subscript: when the message and the context can be printed, the view
    answers 500 with the index error and the provider is not called. *)
Theorem X6_text_context_with_field_is_500 (req : request) (model : provider)
    (w : world) (entries : list (string * pyval)) (m c : pyval)
    (key : string) :
  get_json req = Ok (PDict entries) ->
  dict_lookup "message" entries = Some m ->
  stdout_accepts w m = true ->
  dict_lookup "context" entries = Some c ->
  stdout_accepts w c = true ->
  (exists s, c = PStr s) \/ (exists items, c = PList items) ->
  In key (map fst context_fields) ->
  py_in key c = Ok true ->
  fst (chat req model w) = Ok (server_error (bad_index_message c)) /\
  provider_calls (snd (chat req model w)) = provider_calls w.
Proof.
  intros Hjson Hmsg Hm Hctx Hc Hshape Hkey Hfound.
  destruct (chat_context_raises req model w entries m Hjson Hmsg Hm)
    with (e := TypeError (bad_index_message c)) as [Hreply Hcalls].
  - unfold context_of. now rewrite Hctx.
  - unfold context_of. rewrite Hctx.
    exact (build_context_info_bad_index c key Hshape Hkey Hfound).
  - split; [|exact Hcalls]. rewrite Hreply.
    apply outcome_after_printable; [reflexivity | apply bad_index_printable].
Qed.

Lemma X6_witness :
  fst (chat (post_chat (PDict [("message", PStr "hi");
                               ("context", PStr "my balance is low")]))
         sample_model empty_world) =
    Ok (server_error "string indices must be integers, not 'str'") /\
  provider_calls
    (snd (chat (post_chat (PDict [("message", PStr "hi");
                                  ("context", PStr "my balance is low")]))
            sample_model empty_world)) = provider_calls empty_world.
Proof.
  apply (X6_text_context_with_field_is_500
           (post_chat (PDict [("message", PStr "hi");
                              ("context", PStr "my balance is low")]))
           sample_model empty_world _ (PStr "hi") (PStr "my balance is low")
           "balance" eq_refl eq_refl eq_refl eq_refl eq_refl).
  - left. now eexists.
  - simpl. tauto.
  - reflexivity.
Defined.

(** X7.  A body that parses to a non-zero number or to [true] is not
    turned away with 400: the membership test raises, the view answers
    500 with the [TypeError] text, and the provider is not called. *)
Theorem X7_scalar_body_is_500 (req : request) (model : provider) (w : world)
    (data : pyval) :
  get_json req = Ok data ->
  is_scalar data = true ->
  truthy data = true ->
  fst (chat req model w) =
    Ok (server_error ("argument of type '" ++ type_name data
                        ++ "' is not iterable")) /\
  provider_calls (snd (chat req model w)) = provider_calls w.
Proof.
  intros Hjson Hscalar Htruthy.
  assert (Hdata : encodes (stdout_errors w) (py_str data) = true).
  { apply encodes_py_str. intros s ->. discriminate Hscalar. }
  destruct (chat_raises_early req model w data
              (TypeError ("argument of type '" ++ type_name data
                            ++ "' is not iterable")) Hjson Hdata Htruthy)
    as [Hreply Hcalls].
  { left. destruct data; try discriminate Hscalar; reflexivity. }
  split; [|exact Hcalls]. rewrite Hreply.
  apply outcome_after_printable; [reflexivity | apply not_iterable_printable].
Qed.

Lemma X7_witness :
  fst (chat (post_chat (PBool true)) sample_model empty_world) =
    Ok (server_error "argument of type 'bool' is not iterable") /\
  provider_calls (snd (chat (post_chat (PBool true)) sample_model empty_world)) =
    provider_calls empty_world.
Proof.
  exact (X7_scalar_body_is_500 (post_chat (PBool true)) sample_model
           empty_world (PBool true) eq_refl eq_refl eq_refl).
Defined.

(** X8.  A body that is a string containing ["message"], or an array
    listing it, and that can be printed, passes the validation and fails
    on [data['message']]: the view answers 500 with the index error, not
    400, and the provider is not called. *)
Theorem X8_text_body_with_message_is_500 (req : request) (model : provider)
    (w : world) (data : pyval) :
  get_json req = Ok data ->
  stdout_accepts w data = true ->
  (exists s, data = PStr s) \/ (exists items, data = PList items) ->
  py_in "message" data = Ok true ->
  fst (chat req model w) = Ok (server_error (bad_index_message data)) /\
  provider_calls (snd (chat req model w)) = provider_calls w.
Proof.
  intros Hjson Hdata Hshape Hfound.
  assert (Htruthy : truthy data = true).
  { destruct Hshape as [[s ->] | [items ->]].
    - destruct s; [discriminate Hfound | reflexivity].
    - destruct items; [discriminate Hfound | reflexivity]. }
  destruct (chat_raises_early req model w data
              (TypeError (bad_index_message data)) Hjson Hdata Htruthy)
    as [Hreply Hcalls].
  { right. split; [exact Hfound|].
    destruct Hshape as [[s ->] | [items ->]]; reflexivity. }
  split; [|exact Hcalls]. rewrite Hreply.
  apply outcome_after_printable; [reflexivity | apply bad_index_printable].
Qed.

Lemma X8_witness :
  fst (chat (post_chat (PList [PStr "message"])) sample_model empty_world) =
    Ok (server_error "list indices must be integers or slices, not str") /\
  provider_calls
    (snd (chat (post_chat (PList [PStr "message"])) sample_model empty_world)) =
    provider_calls empty_world.
Proof.
  apply (X8_text_body_with_message_is_500 (post_chat (PList [PStr "message"]))
           sample_model empty_world (PList [PStr "message"]) eq_refl eq_refl).
  - right. now eexists.
  - reflexivity.
Defined.

(** X9.  When [request.get_json()] itself raises an exception that
    derives from [Exception] (a body that is not JSON) and whose text
    and class name hold no lone surrogate, the view answers 500 with
    that exception's text, and the provider is not called. *)
Theorem X9_unparsed_body_is_500 (req : request) (model : provider) (w : world)
    (e : pyexc) :
  get_json req = Raise e ->
  exc_root_of e = FromException ->
  exc_printable e = true ->
  fst (chat req model w) = Ok (server_error (exc_str e)) /\
  provider_calls (snd (chat req model w)) = provider_calls w.
Proof.
  intros Hjson Hroot Hprintable.
  destruct (chat_unparsed_body req model w e Hjson) as [Hreply Hcalls].
  split; [|exact Hcalls].
  rewrite Hreply. now apply outcome_after_printable.
Qed.

Lemma X9_witness :
  fst (chat (mk_request "POST" "/chat" (Raise bad_request)) sample_model
         empty_world) =
    Ok (server_error
          "400 Bad Request: The browser (or proxy) sent a request that this server could not understand.") /\
  provider_calls
    (snd (chat (mk_request "POST" "/chat" (Raise bad_request)) sample_model
            empty_world)) = provider_calls empty_world.
Proof.
  exact (X9_unparsed_body_is_500
           (mk_request "POST" "/chat" (Raise bad_request)) sample_model
           empty_world bad_request eq_refl eq_refl eq_refl).
Defined.

(** X10.  When the texts the view prints can be written and the provider
    returns, but reading [.text] of what it returned raises, the call
    has been made and the line that announces the response has been
    printed; the view then answers 500, and the two error lines are the
    last ones printed. *)
Theorem X10_unreadable_text_after_call (req : request) (model : provider)
    (w : world) (entries : list (string * pyval)) (m : pyval)
    (context_info : string) (generated : GenerateContentResponse)
    (e : pyexc) :
  get_json req = Ok (PDict entries) ->
  dict_lookup "message" entries = Some m ->
  stdout_accepts w m = true ->
  stdout_accepts w (context_of entries) = true ->
  build_context_info (context_of entries) = Ok context_info ->
  model (full_prompt_of context_info m) generation_config = Ok generated ->
  text generated = Raise e ->
  exc_root_of e = FromException ->
  exc_printable e = true ->
  fst (chat req model w) = Ok (server_error (exc_str e)) /\
  provider_calls (snd (chat req model w)) =
    calls_with w (full_prompt_of context_info m) /\
  exists earlier,
    stdout (snd (chat req model w)) =
      (earlier ++ ["✅ Got response from Gemini";
                   String.append "❌ ERROR: " (exc_str e);
                   String.append "❌ ERROR TYPE: <class '"
                     (String.append (exc_class e) "'>")])%list.
Proof.
  intros Hjson Hmsg Hm Hc Hctx Hcall Htext Hroot Hprintable.
  unfold stdout_accepts in Hm, Hc.
  split; [|split].
  - rewrite (chat_response req model w entries m Hjson Hmsg Hm Hc _ Hctx).
    unfold reply_to_prompt. unfold full_prompt_of in Hcall.
    rewrite Hcall, Htext. now apply outcome_after_printable.
  - exact (chat_calls req model w entries m Hjson Hmsg Hm Hc _ Hctx).
  - unfold full_prompt_of in Hcall.
    unfold chat, try_except_Exception. enter_try. print_passes.
    rewrite Hjson. run. print_passes.
    rewrite (entries_truthy entries m Hmsg). run.
    unfold py_in, py_getitem, py_get. rewrite Hmsg. run.
    fold (context_of entries). print_passes. print_passes.
    rewrite Hctx. run. print_passes. rewrite Hcall. run. print_passes.
    rewrite Htext, Hroot.
    rewrite (proj2 (chat_except_printable e _ Hprintable)). run.
    eexists. rewrite <- app_assoc. reflexivity.
Qed.

Lemma X10_witness :
  fst (chat sample_chat_request blocked_model empty_world) =
    Ok (server_error "The response was blocked.") /\
  provider_calls (snd (chat sample_chat_request blocked_model empty_world)) =
    calls_with empty_world (full_prompt_of "" (PStr "What is a SIP?")) /\
  exists earlier,
    stdout (snd (chat sample_chat_request blocked_model empty_world)) =
      (earlier ++ ["✅ Got response from Gemini";
                   String.append "❌ ERROR: " "The response was blocked.";
                   String.append "❌ ERROR TYPE: <class '"
                     (String.append "ValueError" "'>")])%list.
Proof.
  exact (X10_unreadable_text_after_call sample_chat_request blocked_model
           empty_world _ _ ""
           (mk_gen_response (Raise (ValueError "The response was blocked.")))
           (ValueError "The response was blocked.")
           eq_refl eq_refl eq_refl eq_refl eq_refl eq_refl eq_refl eq_refl
           eq_refl).
Defined.



(** X12.  Values are inserted without escaping, so the prompt does not
    tell where the context ends and the message begins: moving the text
    after a ["\n\nUser: "] from the income value into the message gives
    a different request with the same prompt, as long as both messages
    can be printed. *)
Theorem X12_prompt_is_ambiguous (income before_marker after_marker : string)
    (model : provider) (w : world) :
  stdout_accepts w (PStr (before_marker ++ user_marker ++ after_marker)) = true ->
  stdout_accepts w (PStr after_marker) = true ->
  get_json (income_request income
              (before_marker ++ user_marker ++ after_marker)) <>
    get_json (income_request (income ++ user_marker ++ before_marker)
                after_marker) /\
  provider_calls
    (snd (chat (income_request income
                  (before_marker ++ user_marker ++ after_marker)) model w)) =
    provider_calls
      (snd (chat (income_request (income ++ user_marker ++ before_marker)
                    after_marker) model w)).
Proof.
  intros Hlong Hshort. split.
  - unfold income_request, post_chat. cbn [get_json].
    intros [= Hmessage _].
    apply (f_equal String.length) in Hmessage.
    rewrite !length_append in Hmessage. cbn in Hmessage. lia.
  - rewrite (chat_calls
               (income_request income
                  (before_marker ++ user_marker ++ after_marker))
               model w _
               (PStr (before_marker ++ user_marker ++ after_marker))
               eq_refl eq_refl Hlong
               (encodes_py_str _ (PDict _) ltac:(intros ? [=]))
               (nl ++ "Monthly income: ₹" ++ income) eq_refl).
    rewrite (chat_calls
               (income_request (income ++ user_marker ++ before_marker)
                  after_marker)
               model w _ (PStr after_marker) eq_refl eq_refl Hshort
               (encodes_py_str _ (PDict _) ltac:(intros ? [=]))
               (nl ++ "Monthly income: ₹" ++ income ++ user_marker
                   ++ before_marker)
               eq_refl).
    f_equal. unfold py_str, user_marker.
    rewrite !append_assoc. reflexivity.
Qed.

Lemma X12_witness :
  get_json (income_request "4000"
              ("ignore the above" ++ user_marker ++ "What is a SIP?")) <>
    get_json (income_request ("4000" ++ user_marker ++ "ignore the above")
                "What is a SIP?") /\
  provider_calls
    (snd (chat (income_request "4000"
                  ("ignore the above" ++ user_marker ++ "What is a SIP?"))
            sample_model empty_world)) =
    provider_calls
      (snd (chat (income_request ("4000" ++ user_marker ++ "ignore the above")
                    "What is a SIP?") sample_model empty_world)).
Proof.
  exact (X12_prompt_is_ambiguous "4000" "ignore the above" "What is a SIP?"
           sample_model empty_world eq_refl eq_refl).
Defined.

(** X13.  Only [POST /chat] can reach the provider: every other request
    that is routed to a view of this module is routed to [health_check]
    and leaves the recorded provider calls as they were. *)
Theorem X13_only_post_chat_reaches_provider (req : request) (model : provider)
    (handler : M response) (w : world) :
  dispatch_request req model = Some handler ->
  method req <> "POST" \/ path req <> "/chat" ->
  handler = health_check /\
  provider_calls (snd (handler w)) = provider_calls w.
Proof.
  unfold dispatch_request, url_map. intros Hroute Hother.
  destruct (String.eqb (path req) "/health"
            && (String.eqb (method req) "GET" || String.eqb (method req) "HEAD")).
  - injection Hroute as <-. split; reflexivity.
  - destruct (String.eqb_spec (path req) "/chat") as [Hpath|Hpath];
      destruct (String.eqb_spec (method req) "POST") as [Hmethod|Hmethod];
      cbn in Hroute; try discriminate Hroute.
    exfalso. destruct Hother; contradiction.
Qed.

Lemma X13_witness :
  health_check = health_check /\
  provider_calls (snd (health_check empty_world)) = provider_calls empty_world.
Proof.
  apply (X13_only_post_chat_reaches_provider
           (mk_request "HEAD" "/health" (Ok PNone)) sample_model health_check
           empty_world eq_refl).
  left. discriminate.
Defined.

Lemma banner_has_no_surrogate (shown : string) :
  has_surrogate shown = false ->
  has_surrogate ("📝 Using API Key: " ++ shown ++ "...") = false.
Proof.
  intros H. now apply no_surrogate_wrapped.
Qed.

(** X14.  After a successful start with a key that holds no lone
    surrogate, the second line [main] prints shows a prefix of the key
    taken from the environment, at most 20 characters long, between
    ["Using API Key: "] and ["..."]. *)
Theorem X14_banner_shows_key_prefix (env : option string)
    (config : app_config) (w : world) :
  startup env = Ok config ->
  has_surrogate (API_KEY config) = false ->
  exists key shown rest,
    env = Some key /\
    key = shown ++ rest /\
    char_count shown <= 20 /\
    stdout (snd (main config w)) =
      (stdout w ++ ["🚀 RampageAI Chatbot API starting on port 5001...";
                    String.append "📝 Using API Key: "
                      (String.append shown "...")])%list.
Proof.
  intros Hstart Hkey.
  destruct (startup_key_nonempty env config Hstart) as [-> _].
  destruct (take_chars_split 20 (API_KEY config)) as [rest Hsplit].
  exists (API_KEY config), (take_chars 20 (API_KEY config)), rest.
  split; [reflexivity|]. split; [exact Hsplit|].
  split; [apply take_chars_count|].
  unfold main, bind, print, ret. run.
  rewrite (first_refused_none _ _ 0) by reflexivity. run.
  rewrite (first_refused_none _ _ 0)
    by (apply banner_has_no_surrogate, take_chars_no_surrogate, Hkey).
  run. now rewrite <- app_assoc.
Qed.

Lemma X14_witness :
  exists key shown rest,
    Some "AIzaSyA-0123456789-abcdefghij-KLMNOP" = Some key /\
    key = shown ++ rest /\
    char_count shown <= 20 /\
    stdout (snd (main (mk_app_config "AIzaSyA-0123456789-abcdefghij-KLMNOP"
                         "gemini-2.0-flash-exp") empty_world)) =
      (stdout empty_world
         ++ ["🚀 RampageAI Chatbot API starting on port 5001...";
             String.append "📝 Using API Key: "
               (String.append shown "...")])%list.
Proof.
  exact (X14_banner_shows_key_prefix
           (Some "AIzaSyA-0123456789-abcdefghij-KLMNOP") _ empty_world
           eq_refl eq_refl).
Defined.

(** X15.  A key of 20 characters or fewer that holds no lone surrogate
    is accepted at start-up as long as it is not empty, and [main] then
    prints it in full. *)
Theorem X15_short_key_is_printed_whole (key : string) (w : world) :
  key <> "" ->
  char_count key <= 20 ->
  has_surrogate key = false ->
  exists config,
    startup (Some key) = Ok config /\
    stdout (snd (main config w)) =
      (stdout w ++ ["🚀 RampageAI Chatbot API starting on port 5001...";
                    String.append "📝 Using API Key: "
                      (String.append key "...")])%list.
Proof.
  intros Hkey Hshort Hclean.
  exists (mk_app_config key "gemini-2.0-flash-exp"). split.
  - unfold startup. destruct key; [contradiction | reflexivity].
  - unfold main, bind, print, ret. run.
    rewrite (first_refused_none _ _ 0) by reflexivity. run.
    rewrite (take_chars_all 20 key Hshort).
    rewrite (first_refused_none _ _ 0)
      by (now apply banner_has_no_surrogate).
    run. now rewrite <- app_assoc.
Qed.

Lemma X15_witness :
  exists config,
    startup (Some "secret-₹-key") = Ok config /\
    stdout (snd (main config empty_world)) =
      (stdout empty_world
         ++ ["🚀 RampageAI Chatbot API starting on port 5001...";
             String.append "📝 Using API Key: "
               (String.append "secret-₹-key" "...")])%list.
Proof.
  apply (X15_short_key_is_printed_whole "secret-₹-key" empty_world).
  - discriminate.
  - vm_compute. lia.
  - reflexivity.
Defined.

(** X16.  For an accepted request whose message and context can be
    printed, the view has printed, before the provider is called, the
    whole parsed body, the text of the message and the text of the
    context, after what was printed before. *)
Theorem X16_accepted_request_is_logged (req : request) (model : provider)
    (w : world) (entries : list (string * pyval)) (m : pyval)
    (context_info : string) :
  get_json req = Ok (PDict entries) ->
  dict_lookup "message" entries = Some m ->
  stdout_accepts w m = true ->
  stdout_accepts w (context_of entries) = true ->
  build_context_info (context_of entries) = Ok context_info ->
  exists later,
    stdout (snd (chat req model w)) =
      (stdout w
         ++ ["📩 Received chat request";
             String.append "📦 Request data: " (py_str (PDict entries));
             String.append "💬 User message: " (py_str m);
             String.append "🔍 Context: " (py_str (context_of entries));
             "🤖 Calling Gemini API..."]
         ++ later)%list.
Proof.
  intros Hjson Hmsg Hm Hc Hctx. unfold stdout_accepts in Hm, Hc.
  unfold chat, try_except_Exception. enter_try. print_passes.
  rewrite Hjson. run. print_passes.
  rewrite (entries_truthy entries m Hmsg). run.
  unfold py_in, py_getitem, py_get. rewrite Hmsg. run.
  fold (context_of entries). print_passes. print_passes.
  rewrite Hctx. run. print_passes.
  assert (Hexcept : forall e printed_so_far extra,
    stdout printed_so_far =
      (stdout w
         ++ ["📩 Received chat request";
             String.append "📦 Request data: " (py_str (PDict entries));
             String.append "💬 User message: " (py_str m);
             String.append "🔍 Context: " (py_str (context_of entries));
             "🤖 Calling Gemini API..."] ++ extra)%list ->
    exists later,
      stdout (snd (chat_except e printed_so_far)) =
        (stdout w
           ++ ["📩 Received chat request";
               String.append "📦 Request data: " (py_str (PDict entries));
               String.append "💬 User message: " (py_str m);
               String.append "🔍 Context: " (py_str (context_of entries));
               "🤖 Calling Gemini API..."] ++ later)%list).
  { intros e w0 extra Hw0. destruct (chat_except_extends e w0) as [later H].
    exists (extra ++ later)%list. rewrite H, Hw0.
    now rewrite <- !app_assoc. }
  destruct (model _ _) as [generated|e]; run.
  - print_passes. destruct (text generated) as [t|e]; run.
    + exists ["✅ Got response from Gemini"].
      rewrite <- !app_assoc. reflexivity.
    + destruct (exc_root_of e); run.
      * apply (Hexcept e _ ["✅ Got response from Gemini"]). run.
        rewrite <- !app_assoc. reflexivity.
      * exists ["✅ Got response from Gemini"].
        rewrite <- !app_assoc. reflexivity.
  - destruct (exc_root_of e); run.
    + apply (Hexcept e _ []). run. rewrite <- !app_assoc. reflexivity.
    + exists []. rewrite <- !app_assoc. reflexivity.
Qed.

Lemma X16_witness :
  exists later,
    stdout (snd (chat sample_chat_request sample_model empty_world)) =
      (stdout empty_world
         ++ ["📩 Received chat request";
             String.append "📦 Request data: "
               (py_str (PDict [("message", PStr "What is a SIP?")]));
             String.append "💬 User message: " (py_str (PStr "What is a SIP?"));
             String.append "🔍 Context: "
               (py_str (context_of [("message", PStr "What is a SIP?")]));
             "🤖 Calling Gemini API..."]
         ++ later)%list.
Proof.
  exact (X16_accepted_request_is_logged sample_chat_request sample_model
           empty_world _ _ "" eq_refl eq_refl eq_refl eq_refl eq_refl).
Defined.

(** X17.  The message is printed before the provider is called: when
    standard output cannot encode it (it holds a lone surrogate that the
    handler refuses), the view answers 500 with the text of the
    [UnicodeEncodeError] and the provider is not called. *)
Theorem X17_unprintable_message_is_500 (req : request) (model : provider)
    (w : world) (entries : list (string * pyval)) (m : pyval) :
  get_json req = Ok (PDict entries) ->
  dict_lookup "message" entries = Some m ->
  stdout_accepts w m = false ->
  (exists start stop cp,
     fst (chat req model w) =
       Ok (server_error (exc_str (UnicodeEncodeError start stop cp)))) /\
  provider_calls (snd (chat req model w)) = provider_calls w.
Proof.
  intros Hjson Hmsg Hm.
  destruct (first_refused_failing_line (stdout_errors w)
              "💬 User message: " (py_str m) eq_refl Hm) as (a & b & c & E).
  destruct (chat_unprintable_message req model w entries m Hjson Hmsg a b c E)
    as [Hreply Hcalls].
  split; [now exists a, b, c | exact Hcalls].
Qed.

Lemma X17_witness :
  (exists start stop cp,
     fst (chat (post_chat (PDict [("message", PStr high_surrogate)]))
            sample_model posix_world) =
       Ok (server_error (exc_str (UnicodeEncodeError start stop cp)))) /\
  provider_calls
    (snd (chat (post_chat (PDict [("message", PStr high_surrogate)]))
            sample_model posix_world)) = provider_calls posix_world.
Proof.
  exact (X17_unprintable_message_is_500
           (post_chat (PDict [("message", PStr high_surrogate)]))
           sample_model posix_world _ _ eq_refl eq_refl eq_refl).
Defined.

(** X18.  The [except] suite prints the text of the exception before it
    makes the response: when standard output cannot encode that text,
    no response is made and the [UnicodeEncodeError] of the [print]
    leaves the view. *)
Theorem X18_unprintable_failure_leaves_view (req : request) (model : provider)
    (w w' : world) (e : pyexc) :
  chat_try req model w = (Raise e, w') ->
  exc_root_of e = FromException ->
  encodes (stdout_errors w) (exc_str e) = false ->
  exists start stop cp,
    fst (chat req model w) = Raise (UnicodeEncodeError start stop cp).
Proof.
  intros Htry Hroot Hstr.
  assert (Hhandler : stdout_errors w' = stdout_errors w).
  { assert (H : steady (chat_try req model))
      by (unfold chat_try; steady_steps).
    pose proof (proj1 H w) as Hw. now rewrite Htry in Hw. }
  destruct (first_refused_failing_line (stdout_errors w)
              "❌ ERROR: " (exc_str e) eq_refl Hstr) as (a & b & c & E).
  exists a, b, c.
  unfold chat, try_except_Exception. rewrite Htry, Hroot.
  unfold chat_except, bind, print. rewrite Hhandler, E. reflexivity.
Qed.

Lemma X18_witness :
  exists start stop cp,
    fst (chat sample_chat_request
           (failing_model (mk_exc FromException "RuntimeError" high_surrogate))
           empty_world) = Raise (UnicodeEncodeError start stop cp).
Proof.
  exact (X18_unprintable_failure_leaves_view sample_chat_request
           (failing_model (mk_exc FromException "RuntimeError" high_surrogate))
           empty_world
           (snd (chat_try sample_chat_request
                   (failing_model
                      (mk_exc FromException "RuntimeError" high_surrogate))
                   empty_world))
           (mk_exc FromException "RuntimeError" high_surrogate)
           eq_refl eq_refl eq_refl).
Defined.
